(** * encode.py: thermometer puzzle encoder

    A shallow embedding of [src/encode.py] and the properties of its three
    stages: [parse_instance] / [parse_targets] (input text to grid and
    targets), [extract_thermometers] (grid to thermometers) and
    [render_facts] (everything to ASP fact text).

    Conventions of the embedding:
    - a Python [str] is a list of code points; code points below 256 are
      modelled, as [ascii];
    - a Python [int] is a [Z]; list indexing follows Python (negative
      indices count from the end, anything else out of range raises
      [IndexError]);
    - every [raise ValueError(...)] of the source is one constructor of
      [error], named after the failure it reports;
    - the [while True] loop of [extract_thermometers] is run with fuel;
      [OutOfFuel] is the outcome of a loop that was cut short;
    - the built-in [int] is a parameter of the parser, and the file access
      of [main] and [parse_instance] is left out: [parse_instance] starts
      from the text read from the file. *)

From Stdlib Require Import ZArith Ascii String DecimalString Lia.
From stdpp Require Import base numbers option list gmap strings.

Local Open Scope Z_scope.

(** * The program *)

(** ** Strings *)

Abbreviation str := (list ascii).

Definition lit (s : string) : str := list_ascii_of_string s.

(** ** Outcomes of a Python call *)

Inductive error : Type :=
| EmptyGrid                      (* "input grid is empty" *)
| NonSquareGrid                  (* "grid is not square" *)
| InvalidSymbol (char : ascii)   (* "invalid character '{char}' in grid" *)
| TargetLineCountMismatch        (* "expected two lines with column and row targets" *)
| InvalidTargetValue (kind line : str)
                                 (* "invalid {kind} target value in '{line}'" *)
| TargetCountMismatch (expected : Z) (kind : str) (found : Z) (line : str)
                                 (* "expected {expected} {kind} targets but found {found} in '{line}'" *)
| OverlappingThermometer (row col : Z)
                                 (* "grid contains overlapping thermometers at ({row},{col})" *)
| UncoveredCell (row col : Z)    (* "found a grid cell that does not belong to any thermometer at ({row},{col})" *)
| IndexError                     (* list or str index out of range *)
| KeyError.                      (* dict key missing *)

Inductive outcome (A : Type) : Type :=
| Return (a : A)
| Raise (e : error)
| OutOfFuel.
Arguments Return {A} a.
Arguments Raise {A} e.
Arguments OutOfFuel {A}.

#[global] Instance outcome_ret : MRet outcome := λ A a, Return a.
#[global] Instance outcome_bind : MBind outcome := λ A B f m,
  match m with
  | Return a => f a
  | Raise e => Raise e
  | OutOfFuel => OutOfFuel
  end.

(** [for x in xs: s = body(x, s)], stopping at the first exception. *)
Fixpoint for_each {A S : Type} (xs : list A) (body : A → S → outcome S) (s : S)
  : outcome S :=
  match xs with
  | [] => Return s
  | x :: xs => s' ← body x s; for_each xs body s'
  end.

(** [range(n)] *)
Definition range (n : Z) : list Z := seqZ 0 n.

(** ** Python sequence indexing *)

Definition py_norm (len : nat) (i : Z) : option nat :=
  if bool_decide (0 ≤ i < Z.of_nat len) then Some (Z.to_nat i)
  else if bool_decide (- Z.of_nat len ≤ i < 0) then Some (Z.to_nat (i + Z.of_nat len))
  else None.

(** [l[i]] *)
Definition py_get {A : Type} (l : list A) (i : Z) : outcome A :=
  match py_norm (length l) i ≫= (l !!.) with
  | Some x => Return x
  | None => Raise IndexError
  end.

(** [l[i] = x] *)
Definition py_set {A : Type} (l : list A) (i : Z) (x : A) : outcome (list A) :=
  match py_norm (length l) i with
  | Some n => Return (<[n:=x]> l)
  | None => Raise IndexError
  end.

(** [d[k]] on a dict *)
Definition dict_get {V : Type} (d : gmap ascii V) (k : ascii) : outcome V :=
  match d !! k with
  | Some v => Return v
  | None => Raise KeyError
  end.

(** ** Python string built-ins (code points below 256) *)

Definition code (c : ascii) : Z := Z.of_N (N_of_ascii c).

(** [c.isspace()] *)
Definition is_space (c : ascii) : bool :=
  let k := code c in
  ((9 <=? k) && (k <=? 13)) || ((28 <=? k) && (k <=? 32)) || (k =? 133) || (k =? 160).

(** Line boundaries of [str.splitlines]. *)
Definition is_linebreak (c : ascii) : bool :=
  let k := code c in
  ((10 <=? k) && (k <=? 13)) || ((28 <=? k) && (k <=? 30)) || (k =? 133).

Definition nl : str := ["010"%char].

(** [s.splitlines()] *)
Fixpoint splitlines_go (cur : str) (s : str) : list str :=
  match s with
  | [] => match cur with [] => [] | _ => [cur] end
  | c :: s' =>
      if is_linebreak c then
        cur :: match s' with
               | d :: s'' =>
                   (* "\r\n" is one boundary *)
                   if bool_decide (c = "013"%char ∧ d = "010"%char)
                   then splitlines_go [] s''
                   else splitlines_go [] s'
               | [] => []
               end
      else splitlines_go (cur ++ [c]) s'
  end.

Definition splitlines (s : str) : list str := splitlines_go [] s.

(** [s.lstrip()], [s.rstrip()], [s.strip()] *)
Fixpoint lstrip (s : str) : str :=
  match s with
  | [] => []
  | c :: s' => if is_space c then lstrip s' else s
  end.

Definition rstrip (s : str) : str := reverse (lstrip (reverse s)).

Definition strip (s : str) : str := rstrip (lstrip s).

(** [s.split()] *)
Fixpoint split_go (cur : str) (s : str) : list str :=
  match s with
  | [] => match cur with [] => [] | _ => [cur] end
  | c :: s' =>
      if is_space c then
        match cur with [] => split_go [] s' | _ => cur :: split_go [] s' end
      else split_go (cur ++ [c]) s'
  end.

Definition split (s : str) : list str := split_go [] s.

(** [sep.join(xs)] *)
Fixpoint join (sep : str) (xs : list str) : str :=
  match xs with
  | [] => []
  | [x] => x
  | x :: xs' => x ++ sep ++ join sep xs'
  end.

(** [str(i)] for an [int], as f-strings format it. *)
Definition str_of_Z (i : Z) : str := lit (NilZero.string_of_int (Z.to_int i)).

(** ** Module constants *)

Definition ALLOWED_CHARS : gset ascii := list_to_set (lit "UDRL^v><").
Definition BULBS : gset ascii := list_to_set (lit "UDRL").

Definition DIRECTION_DELTAS : gmap ascii (Z * Z) :=
  list_to_map
    [ ("U"%char, (-1, 0)); ("^"%char, (-1, 0));
      ("D"%char, (1, 0));  ("v"%char, (1, 0));
      ("R"%char, (0, 1));  (">"%char, (0, 1));
      ("L"%char, (0, -1)); ("<"%char, (0, -1)) ].

Definition DIRECTION_NAMES : gmap ascii str :=
  list_to_map
    [ ("U"%char, lit "up");    ("^"%char, lit "up");
      ("D"%char, lit "down");  ("v"%char, lit "down");
      ("R"%char, lit "right"); (">"%char, lit "right");
      ("L"%char, lit "left");  ("<"%char, lit "left") ].

Record Thermometer : Type := {
  bulb_row : Z;
  bulb_col : Z;
  direction : str;
  cells : list (Z * Z * Z)   (* (index, row, col) *)
}.

(** ** parse_targets and parse_instance *)

Section parse.
(** Python's built-in [int(token)]: [None] when it raises [ValueError]. *)
Variable py_int : str → option Z.

Definition parse_targets (line : str) (expected : Z) (kind : str) : outcome (list Z) :=
  match mapM py_int (split line) with
  | None => Raise (InvalidTargetValue kind line)
  | Some values =>
      if bool_decide (Z.of_nat (length values) ≠ expected)
      then Raise (TargetCountMismatch expected kind (Z.of_nat (length values)) line)
      else Return values
  end.

(** Body of the loop that sorts the lines of the file. *)
Definition classify_line (st : list str * list str) (raw : str) : list str * list str :=
  let '(grid_lines, number_lines) := st in
  let line := strip raw in
  match line with
  | [] => st
  | _ =>
      if bool_decide ((list_to_set line : gset ascii) ⊆ ALLOWED_CHARS)
      then (grid_lines ++ [line], number_lines)
      else (grid_lines, number_lines ++ [line])
  end.

(** Body of the loop that validates the grid rows. *)
Definition check_row (size : Z) (row : str) (_ : unit) : outcome unit :=
  if bool_decide (Z.of_nat (length row) ≠ size) then Raise NonSquareGrid
  else
    for_each row
      (λ char _, if bool_decide (char ∉ ALLOWED_CHARS)
                 then Raise (InvalidSymbol char) else Return ())
      ().

(** [parse_instance], from the text read from the file. *)
Definition parse_instance (text : str) : outcome (list str * list Z * list Z) :=
  let raw_lines := splitlines text in
  let '(grid_lines, number_lines) := foldl classify_line ([], []) raw_lines in
  match grid_lines with
  | [] => Raise EmptyGrid
  | _ =>
      let size := Z.of_nat (length grid_lines) in
      _ ← for_each grid_lines (check_row size) ();
      if bool_decide (length number_lines ≠ 2%nat) then Raise TargetLineCountMismatch
      else
        line0 ← py_get number_lines 0;
        column_targets ← parse_targets line0 size (lit "column");
        line1 ← py_get number_lines 1;
        row_targets ← parse_targets line1 size (lit "row");
        Return (grid_lines, column_targets, row_targets)
  end.
End parse.

(** ** extract_thermometers *)

(** The [while True] loop, entered with the loop variables as arguments.
    It returns the updated [visited] and [cells]. *)
Fixpoint walk (fuel : nat) (grid : list str) (size : Z) (direction : Z * Z)
    (visited : list (list bool)) (cells : list (Z * Z * Z))
    (current_row current_col index : Z)
  : outcome (list (list bool) * list (Z * Z * Z)) :=
  match fuel with
  | O => OutOfFuel
  | S fuel =>
    visited_row ← py_get visited current_row;
    seen ← py_get visited_row current_col;
    if seen : bool then Raise (OverlappingThermometer current_row current_col)
    else
      visited_row ← py_set visited_row current_col true;
      visited ← py_set visited current_row visited_row;
      let cells := cells ++ [(index, current_row, current_col)] in
      let next_row := current_row + direction.1 in
      let next_col := current_col + direction.2 in
      if negb (bool_decide (0 ≤ next_row < size) && bool_decide (0 ≤ next_col < size))
      then Return (visited, cells)
      else
        grid_row ← py_get grid next_row;
        next_char ← py_get grid_row next_col;
        if bool_decide (next_char ∈ BULBS) then Return (visited, cells)
        else if bool_decide (DIRECTION_DELTAS !! next_char ≠ Some direction)
        then Return (visited, cells)
        else walk fuel grid size direction visited cells next_row next_col (index + 1)
  end.

(** Body of the two nested [for] loops of the first scan. *)
Definition scan_cell (fuel : nat) (grid : list str) (size : Z) (row col : Z)
    (st : list (list bool) * list Thermometer)
  : outcome (list (list bool) * list Thermometer) :=
  let '(visited, thermometers) := st in
  grid_row ← py_get grid row;
  char ← py_get grid_row col;
  if bool_decide (char ∈ BULBS) then
    visited_row ← py_get visited row;
    seen ← py_get visited_row col;
    if seen : bool then Return st
    else
      direction ← dict_get DIRECTION_DELTAS char;
      direction_name ← dict_get DIRECTION_NAMES char;
      '(visited, cells) ← walk fuel grid size direction visited [] row col 1;
      Return (visited,
              thermometers ++ [ {| bulb_row := row; bulb_col := col;
                                   direction := direction_name;
                                   cells := cells |} ])
  else Return st.

(** Body of the two nested [for] loops of the coverage check. *)
Definition check_cell (visited : list (list bool)) (row col : Z) (_ : unit)
  : outcome unit :=
  visited_row ← py_get visited row;
  seen ← py_get visited_row col;
  if negb seen then Raise (UncoveredCell row col) else Return ().

(** The first scan: every bulb is walked. *)
Definition scan_bulbs (fuel : nat) (grid : list str)
  : outcome (list (list bool) * list Thermometer) :=
  let size := Z.of_nat (length grid) in
  let visited := replicate (length grid) (replicate (length grid) false) in
  for_each (range size)
    (λ row, for_each (range size) (λ col, scan_cell fuel grid size row col))
    (visited, []).

Definition extract_thermometers_fuel (fuel : nat) (grid : list str)
  : outcome (list Thermometer) :=
  let size := Z.of_nat (length grid) in
  '(visited, thermometers) ← scan_bulbs fuel grid;
  _ ← for_each (range size)
        (λ row, for_each (range size) (λ col, check_cell visited row col)) ();
  Return thermometers.

(** A walk inside a [size × size] grid takes at most [size] iterations
    (see [extract_thermometers_terminates]), so this much fuel is enough. *)
Definition extract_thermometers (grid : list str) : outcome (list Thermometer) :=
  extract_thermometers_fuel (length grid) grid.

(** ** render_facts *)

Definition thermo_lines (thermo : Thermometer) : list str :=
  let bulb_row := str_of_Z (bulb_row thermo) in
  let bulb_col := str_of_Z (bulb_col thermo) in
  let cell_list := cells thermo in
  [ lit "thermometer(" ++ bulb_row ++ lit "," ++ bulb_col ++ lit ").";
    lit "thermo_dir(" ++ bulb_row ++ lit "," ++ bulb_col ++ lit "," ++ direction thermo ++ lit ").";
    lit "thermo_length(" ++ bulb_row ++ lit "," ++ bulb_col ++ lit ","
      ++ str_of_Z (Z.of_nat (length cell_list)) ++ lit ")." ]
  ++ ((λ c : Z * Z * Z,
         lit "thermo_cell(" ++ bulb_row ++ lit "," ++ bulb_col ++ lit ","
           ++ str_of_Z c.1.1 ++ lit "," ++ str_of_Z c.1.2 ++ lit "," ++ str_of_Z c.2 ++ lit ").")
        <$> cell_list)
  ++ [[]].

Definition row_line (row : Z) : str := lit "row(" ++ str_of_Z row ++ lit ").".
Definition col_line (col : Z) : str := lit "col(" ++ str_of_Z col ++ lit ").".
Definition cell_line (row col : Z) : str :=
  lit "cell(" ++ str_of_Z row ++ lit "," ++ str_of_Z col ++ lit ").".

(** The list [lines] at the end of [render_facts]. *)
Definition render_lines (grid : list str) (column_targets row_targets : list Z)
    (thermometers : list Thermometer) : list str :=
  let size := Z.of_nat (length grid) in
  [ lit "#const n=" ++ str_of_Z size ++ lit "."; [] ]
  ++ (row_line <$> range size) ++ [[]]
  ++ (col_line <$> range size) ++ [[]]
  ++ (row ← range size; (cell_line row <$> range size)) ++ [[]]
  ++ imap (λ index value,
             lit "col_target(" ++ str_of_Z (Z.of_nat index) ++ lit "," ++ str_of_Z value ++ lit ").")
          column_targets
  ++ [[]]
  ++ imap (λ index value,
             lit "row_target(" ++ str_of_Z (Z.of_nat index) ++ lit "," ++ str_of_Z value ++ lit ").")
          row_targets
  ++ [[]]
  ++ (thermometers ≫= thermo_lines).

Definition render_facts (grid : list str) (column_targets row_targets : list Z)
    (thermometers : list Thermometer) : str :=
  rstrip (join nl (render_lines grid column_targets row_targets thermometers)) ++ nl.

(** ** main *)

(** The text of the ValueErrors raised by the parser and the extractor. *)
Definition error_message (e : error) : str :=
  match e with
  | EmptyGrid => lit "input grid is empty"
  | NonSquareGrid => lit "grid is not square"
  | InvalidSymbol char => lit "invalid character '" ++ [char] ++ lit "' in grid"
  | TargetLineCountMismatch => lit "expected two lines with column and row targets"
  | InvalidTargetValue kind line =>
      lit "invalid " ++ kind ++ lit " target value in '" ++ line ++ lit "'"
  | TargetCountMismatch expected kind found line =>
      lit "expected " ++ str_of_Z expected ++ lit " " ++ kind ++ lit " targets but found "
        ++ str_of_Z found ++ lit " in '" ++ line ++ lit "'"
  | OverlappingThermometer row col =>
      lit "grid contains overlapping thermometers at (" ++ str_of_Z row ++ lit ","
        ++ str_of_Z col ++ lit ")"
  | UncoveredCell row col =>
      lit "found a grid cell that does not belong to any thermometer at ("
        ++ str_of_Z row ++ lit "," ++ str_of_Z col ++ lit ")"
  | IndexError => lit "index out of range"
  | KeyError => lit "key"
  end.

(** [isinstance(exc, ValueError)] *)
Definition is_value_error (e : error) : bool :=
  match e with
  | IndexError | KeyError => false
  | _ => true
  end.

(** What [path.read_text(encoding="utf-8")] does. *)
Inductive read_outcome : Type :=
| ReadText (text : str)       (* returns the decoded text *)
| ReadOSError (exc : str)     (* raises an OSError; [exc] is [str] of it *)
| ReadValueError (exc : str). (* raises UnicodeDecodeError, which is a ValueError *)

(** What one call of [main] does: it returns a status, having written
    [stdout] and [stderr] and possibly called [write_text] on a path with a
    content; or an exception leaves it; or a loop was cut short. *)
Inductive main_outcome : Type :=
| Exit (status : Z) (stdout stderr : str) (written : option (str * str))
| Uncaught (e : error)
| Unfinished.

(** A call outside any [try]. *)
Definition or_uncaught {A : Type} (m : outcome A) (k : A → main_outcome) : main_outcome :=
  match m with
  | Return a => k a
  | Raise e => Uncaught e
  | OutOfFuel => Unfinished
  end.

Section main.
(** [int(token)], and the file system as [pathlib] shows it: [Path(p).suffix],
    [s.lower()], [str(Path(p))], [Path(p).exists()], [Path(p).read_text()]. *)
Variable py_int : str → option Z.
Variable suffix : str → str.
Variable lower : str → str.
Variable path_str : str → str.
Variable path_exists : str → bool.
Variable read_text : str → read_outcome.

(** The first lines of [parse_instance]: the message of the ValueError
    raised before the text is looked at, or the text. *)
Definition read_instance (path : str) : str + str :=
  if negb (path_exists path)
  then inl (lit "input file '" ++ path_str path ++ lit "' does not exist")
  else
    match read_text path with
    | ReadText text => inr text
    | ReadOSError exc => inl (lit "cannot read '" ++ path_str path ++ lit "': " ++ exc)
    | ReadValueError exc => inl exc
    end.

(** [main] from the extension checks on, the two paths being known. *)
Definition main_checked (input_path : str) (output_path : option str) : main_outcome :=
  if bool_decide (lower (suffix input_path) ≠ lit ".txt") then
    Exit 1 [] (lit "Error: input file must use the .txt extension" ++ nl) None
  else if match output_path with
          | Some path => bool_decide (lower (suffix path) ≠ lit ".lp")
          | None => false
          end then
    Exit 1 [] (lit "Error: output file must use the .lp extension" ++ nl) None
  else
    match read_instance input_path with
    | inl message => Exit 1 [] (lit "Error: " ++ message ++ nl) None
    | inr text =>
        match parse_instance py_int text with
        | Raise e =>
            if is_value_error e
            then Exit 1 [] (lit "Error: " ++ error_message e ++ nl) None
            else Uncaught e
        | OutOfFuel => Unfinished
        | Return (grid, column_targets, row_targets) =>
            or_uncaught (extract_thermometers grid) (λ thermometers,
            let content := render_facts grid column_targets row_targets thermometers in
            match output_path with
            | None => Exit 0 content [] None
            | Some path => Exit 0 [] [] (Some (path, content))
            end)
        end
    end.

Definition main (argv : list str) : main_outcome :=
  if negb (bool_decide (length argv = 2%nat ∨ length argv = 3%nat)) then
    Exit 1 (lit "Usage: python3 encode.py <input-file> [<output-file>]" ++ nl) [] None
  else
    or_uncaught (py_get argv 1) (λ input_path,
    if bool_decide (length argv = 3%nat)
    then or_uncaught (py_get argv 2) (λ path, main_checked input_path (Some path))
    else main_checked input_path None).
End main.

(** * Vocabulary of the statements *)

(** Cells are (row, col) pairs; [inside n x] says [x] is a cell of the
    [n × n] board. *)
Definition inside (n : nat) (x : Z * Z) : Prop :=
  0 ≤ x.1 < Z.of_nat n ∧ 0 ≤ x.2 < Z.of_nat n.

(** [n] rows of [n] entries each. *)
Definition shaped {A : Type} (n : nat) (m : list (list A)) : Prop :=
  length m = n ∧ Forall (λ row, length row = n) m.

Definition square (grid : list str) : Prop := shaped (length grid) grid.

(** Entry of a matrix at a cell with non-negative coordinates. *)
Definition at2 {A : Type} (m : list (list A)) (x : Z * Z) : option A :=
  m !! Z.to_nat x.1 ≫= (.!! Z.to_nat x.2).

(** The cell [k] steps from [b] in direction [d]. *)
Definition ray (b d : Z * Z) (k : nat) : Z * Z :=
  (b.1 + Z.of_nat k * d.1, b.2 + Z.of_nat k * d.2).

Definition unit_delta (d : Z * Z) : Prop :=
  d = (-1, 0) ∨ d = (1, 0) ∨ d = (0, 1) ∨ d = (0, -1).

(** A walk in direction [d] steps into cell [y]: it is on the board and
    holds a chain symbol of that direction. *)
Definition continues (grid : list str) (d y : Z * Z) : Prop :=
  inside (length grid) y ∧
  ∃ ch, at2 grid y = Some ch ∧ (ch ∉ BULBS) ∧ DIRECTION_DELTAS !! ch = Some d.

(** Cell [b] holds a bulb of direction [d]. *)
Definition bulb_at (grid : list str) (b d : Z * Z) : Prop :=
  inside (length grid) b ∧
  ∃ ch, at2 grid b = Some ch ∧ ch ∈ BULBS ∧ DIRECTION_DELTAS !! ch = Some d.

(** Cell [x] lies on the directional walk of the bulb at [b]. *)
Definition on_walk (grid : list str) (b d x : Z * Z) : Prop :=
  ∃ k : nat, x = ray b d k ∧
    ∀ i : nat, (1 ≤ i ≤ k)%nat → continues grid d (ray b d i).

(** Cell [x] is visited by the walk of some bulb. *)
Definition covered (grid : list str) (x : Z * Z) : Prop :=
  ∃ b d, bulb_at grid b d ∧ on_walk grid b d x.

(** Row-major enumeration of the cells of the board. *)
Definition positions (n : nat) : list (Z * Z) :=
  r ← range (Z.of_nat n); (pair r <$> range (Z.of_nat n)).

(** (row, col) of every cell of every thermometer, in output order. *)
Definition cell_coords (t : Thermometer) : list (Z * Z) :=
  (λ c : Z * Z * Z, (c.1.2, c.2)) <$> cells t.

Definition coords (ths : list Thermometer) : list (Z * Z) :=
  ths ≫= cell_coords.

(** Number of cells from [x] to the edge of the board in direction [d],
    [x] included: the fuel one walk needs. *)
Definition room (n : nat) (d x : Z * Z) : nat :=
  Z.to_nat (if bool_decide (d.1 = -1) then x.1 + 1
            else if bool_decide (d.1 = 1) then Z.of_nat n - x.1
            else if bool_decide (d.2 = 1) then Z.of_nat n - x.2
            else x.2 + 1).

(** [t] is the thermometer of the bulb at [b]: its cells are the bulb and
    the maximal run of chain symbols of the bulb's direction that follows
    it, numbered from 1. *)
Definition thermometer_of (grid : list str) (b : Z * Z) (t : Thermometer) : Prop :=
  ∃ ch d (m : nat),
    at2 grid b = Some ch ∧ ch ∈ BULBS ∧
    DIRECTION_DELTAS !! ch = Some d ∧
    DIRECTION_NAMES !! ch = Some (direction t) ∧
    (bulb_row t, bulb_col t) = b ∧
    (1 ≤ m)%nat ∧
    cells t = (λ j : nat, (1 + Z.of_nat j, b.1 + Z.of_nat j * d.1, b.2 + Z.of_nat j * d.2))
                <$> seq 0 m ∧
    (∀ i : nat, (1 ≤ i < m)%nat → continues grid d (ray b d i)) ∧
    ¬ continues grid d (ray b d m).

Definition bulb_here (grid : list str) (x : Z * Z) : bool :=
  match at2 grid x with
  | Some ch => bool_decide (ch ∈ BULBS)
  | None => false
  end.

(** State of the first scan once the cells [done] have been scanned. *)
Definition scan_inv (grid : list str) (done : list (Z * Z))
    (st : list (list bool) * list Thermometer) : Prop :=
  let n := length grid in
  shaped n st.1 ∧
  Forall2 (thermometer_of grid) (filter (λ x, bulb_here grid x) done) st.2 ∧
  (∀ x, inside n x →
     at2 st.1 x = Some true ↔
     ∃ b d, b ∈ done ∧ bulb_at grid b d ∧ on_walk grid b d x) ∧
  NoDup (coords st.2) ∧
  (∀ x, x ∈ coords st.2 ↔ inside n x ∧ at2 st.1 x = Some true).

(** The unit step meant by a direction name of the output. *)
Definition step_of_name (name : str) : option (Z * Z) :=
  if decide (name = lit "up") then Some (-1, 0)
  else if decide (name = lit "down") then Some (1, 0)
  else if decide (name = lit "right") then Some (0, 1)
  else if decide (name = lit "left") then Some (0, -1)
  else None.

Definition adjacent (p q : Z * Z) : Prop :=
  Z.abs (p.1 - q.1) + Z.abs (p.2 - q.2) = 1.

(** Direction of the symbol at a cell. *)
Definition delta_at (grid : list str) (x : Z * Z) : option (Z * Z) :=
  at2 grid x ≫= (DIRECTION_DELTAS !!.).

(** [s.startswith(p)] *)
Fixpoint is_prefix (p s : str) : bool :=
  match p, s with
  | [], _ => true
  | a :: p', b :: s' => bool_decide (a = b) && is_prefix p' s'
  | _ :: _, [] => false
  end.

(** No character of the string is a line boundary. *)
Definition one_line (s : str) : bool := forallb (λ c, negb (is_linebreak c)) s.

(** A fact line: one line, ending with a full stop; or a blank separator. *)
Definition fact_line (l : str) : Prop :=
  one_line l = true ∧ (l = [] ∨ last l = Some "."%char).

(** The lines that count: stripped, blank ones dropped. *)
Definition content_lines (raw_lines : list str) : list str :=
  List.filter (λ l, negb (bool_decide (l = []))) (strip <$> raw_lines).

(** [set(line) <= ALLOWED_CHARS] *)
Definition grid_line (l : str) : bool :=
  bool_decide ((list_to_set l : gset ascii) ⊆ ALLOWED_CHARS).

(** Characters of a decimal numeral. *)
Definition numeral (s : str) : bool :=
  forallb (λ c, bool_decide (c ∈ lit "-0123456789")) s.

(** The bulb cells of the board, in row-major order. *)
Definition bulbs (grid : list str) : list (Z * Z) :=
  filter (λ x, bulb_here grid x) (positions (length grid)).

(** The fact lines of the targets and of one thermometer. *)
Definition col_target_line (index : nat) (value : Z) : str :=
  lit "col_target(" ++ str_of_Z (Z.of_nat index) ++ lit "," ++ str_of_Z value ++ lit ").".

Definition row_target_line (index : nat) (value : Z) : str :=
  lit "row_target(" ++ str_of_Z (Z.of_nat index) ++ lit "," ++ str_of_Z value ++ lit ").".

Definition thermometer_line (t : Thermometer) : str :=
  lit "thermometer(" ++ str_of_Z (bulb_row t) ++ lit "," ++ str_of_Z (bulb_col t) ++ lit ").".

Definition thermo_dir_line (t : Thermometer) : str :=
  lit "thermo_dir(" ++ str_of_Z (bulb_row t) ++ lit "," ++ str_of_Z (bulb_col t) ++ lit ","
    ++ direction t ++ lit ").".

Definition thermo_length_line (t : Thermometer) : str :=
  lit "thermo_length(" ++ str_of_Z (bulb_row t) ++ lit "," ++ str_of_Z (bulb_col t) ++ lit ","
    ++ str_of_Z (Z.of_nat (length (cells t))) ++ lit ").".

Definition thermo_cell_line (t : Thermometer) (c : Z * Z * Z) : str :=
  lit "thermo_cell(" ++ str_of_Z (bulb_row t) ++ lit "," ++ str_of_Z (bulb_col t) ++ lit ","
    ++ str_of_Z c.1.1 ++ lit "," ++ str_of_Z c.1.2 ++ lit "," ++ str_of_Z c.2 ++ lit ").".

(** * Sample inputs *)

(** A reading of [int] on plain decimal literals (optional sign, digits),
    used to run the parser on examples. *)
Definition digit_value (c : ascii) : option Z :=
  let k := code c in if (48 <=? k) && (k <=? 57) then Some (k - 48) else None.

Definition decimal_value (s : str) : option Z :=
  match s with
  | [] => None
  | _ => foldl (λ acc c, a ← acc; v ← digit_value c; Some (10 * a + v)) (Some 0) s
  end.

Definition int_decimal (token : str) : option Z :=
  match token with
  | "-"%char :: s => Z.opp <$> decimal_value s
  | "+"%char :: s => decimal_value s
  | s => decimal_value s
  end.

(** A 2×2 board: a bulb pointing down with one chain cell under it, and
    two bulbs of length one. *)
Definition sample_grid : list str := [lit "DR"; lit "vU"].

Definition sample_thermometers : list Thermometer :=
  [ {| bulb_row := 0; bulb_col := 0; direction := lit "down";
       cells := [(1, 0, 0); (2, 1, 0)] |};
    {| bulb_row := 0; bulb_col := 1; direction := lit "right"; cells := [(1, 0, 1)] |};
    {| bulb_row := 1; bulb_col := 1; direction := lit "up"; cells := [(1, 1, 1)] |} ].

(** A board of four bulbs, each pointing at its neighbour. *)
Definition facing_grid : list str := [lit "RL"; lit "RL"].

(** A board whose second row is a chain that no bulb reaches. *)
Definition orphan_grid : list str := [lit "R>"; lit "<<"].

(** A small world for [main]: the suffix of a path from its last dot on, ASCII
    lower case, every path existing and holding the same text. *)
Fixpoint from_last_dot (path : str) : option str :=
  match path with
  | [] => None
  | c :: rest =>
      match from_last_dot rest with
      | Some ext => Some ext
      | None => if bool_decide (c = "."%char) then Some (c :: rest) else None
      end
  end.

Definition sample_suffix (path : str) : str := default [] (from_last_dot path).

Definition sample_lower (s : str) : str :=
  (λ c, let k := nat_of_ascii c in
        if bool_decide (65 ≤ k ≤ 90)%nat then ascii_of_nat (k + 32) else c) <$> s.

Definition sample_text : str :=
  lit "DR" ++ nl ++ lit "vU" ++ nl ++ lit "1 2" ++ nl ++ lit "-3 4" ++ nl.


(** * Proofs *)

(** ** Basic facts *)

Section indexing.
Context {A : Type}.
Implicit Types (l : list A) (m : list (list A)).

Lemma py_get_lookup l i x :
  0 ≤ i → l !! Z.to_nat i = Some x → py_get l i = Return x.
Proof.
  intros Hi Hx. unfold py_get, py_norm.
  apply lookup_lt_Some in Hx as Hlt.
  rewrite bool_decide_eq_true_2 by lia. simpl. by rewrite Hx.
Qed.

Lemma py_set_insert l i x :
  0 ≤ i < Z.of_nat (length l) → py_set l i x = Return (<[Z.to_nat i := x]> l).
Proof.
  intros Hi. unfold py_set, py_norm. by rewrite bool_decide_eq_true_2.
Qed.

Lemma shaped_row n m r :
  shaped n m → 0 ≤ r < Z.of_nat n →
  ∃ row, m !! Z.to_nat r = Some row ∧ length row = n.
Proof.
  intros [Hlen Hrows] Hr.
  destruct (lookup_lt_is_Some_2 m (Z.to_nat r)) as [row Hrow]; [lia|].
  exists row. split; [done|]. by eapply (Forall_lookup_1 _ _ _ _ Hrows).
Qed.

Lemma shaped_at2 n m x :
  shaped n m → inside n x →
  ∃ row a, m !! Z.to_nat x.1 = Some row ∧ length row = n ∧
           row !! Z.to_nat x.2 = Some a ∧ at2 m x = Some a.
Proof.
  intros Hm [Hr Hc]. destruct (shaped_row n m x.1) as (row & Hrow & Hlen); [done..|].
  destruct (lookup_lt_is_Some_2 row (Z.to_nat x.2)) as [a Ha]; [lia|].
  exists row, a. unfold at2. rewrite Hrow. simpl. by rewrite Ha.
Qed.

Lemma shaped_insert n m x row a :
  shaped n m → inside n x → m !! Z.to_nat x.1 = Some row →
  let m' := <[Z.to_nat x.1 := <[Z.to_nat x.2 := a]> row]> m in
  shaped n m' ∧
  ∀ y, inside n y → at2 m' y = if decide (y = x) then Some a else at2 m y.
Proof.
  intros [Hlen Hrows] [Hr Hc] Hrow m'. subst m'. split.
  - split; [by rewrite length_insert|].
    apply Forall_insert; [done|]. rewrite length_insert.
    by eapply (Forall_lookup_1 _ _ _ _ Hrows).
  - intros [yr yc] [Hyr Hyc]. simpl in *. unfold at2. simpl.
    assert (length row = n) as Hrl by by eapply (Forall_lookup_1 _ _ _ _ Hrows).
    destruct (decide (Z.to_nat x.1 = Z.to_nat yr)) as [Heq|Hne].
    + rewrite <- Heq, list_lookup_insert_eq by lia. simpl.
      destruct (decide (Z.to_nat x.2 = Z.to_nat yc)) as [Heq'|Hne'].
      * rewrite <- Heq', list_lookup_insert_eq by lia.
        rewrite decide_True; [done|]. destruct x; simpl in *; f_equal; lia.
      * rewrite list_lookup_insert_ne by done.
        rewrite decide_False; [by rewrite Hrow|].
        intros <-. done.
    + rewrite list_lookup_insert_ne by done.
      rewrite decide_False; [done|]. intros <-. done.
Qed.
End indexing.

Lemma ray_0 b d : ray b d 0 = b.
Proof. destruct b. unfold ray. simpl. f_equal; lia. Qed.

Lemma ray_S b d k : ray b d (S k) = ray (b.1 + d.1, b.2 + d.2) d k.
Proof. unfold ray. simpl. f_equal; lia. Qed.

Lemma ray_inj b d j k : unit_delta d → ray b d j = ray b d k → j = k.
Proof.
  intros Hd Heq. unfold ray in Heq.
  destruct Hd as [-> | [-> | [-> | ->]]]; simpl in Heq; injection Heq; lia.
Qed.

Lemma deltas_unit ch d : DIRECTION_DELTAS !! ch = Some d → unit_delta d.
Proof.
  unfold DIRECTION_DELTAS. intros H%elem_of_list_to_map_2.
  rewrite !elem_of_cons, elem_of_nil in H. unfold unit_delta.
  repeat (destruct H as [H|H]; [inversion H; auto|]). done.
Qed.

Lemma bulb_has_delta ch :
  ch ∈ BULBS → ∃ d name, DIRECTION_DELTAS !! ch = Some d ∧ DIRECTION_NAMES !! ch = Some name.
Proof.
  unfold BULBS. rewrite elem_of_list_to_set. simpl.
  rewrite !elem_of_cons, elem_of_nil.
  intros [-> | [-> | [-> | [-> | []]]]]; eexists _, _; split; reflexivity.
Qed.

(** ** The walk of one bulb *)

Lemma room_pos n d x : unit_delta d → inside n x → (1 ≤ room n d x ≤ n)%nat.
Proof.
  intros Hd [??]. unfold room.
  destruct Hd as [-> | [-> | [-> | ->]]]; simpl; lia.
Qed.

Lemma room_step n d x :
  unit_delta d → inside n x → inside n (x.1 + d.1, x.2 + d.2) →
  S (room n d (x.1 + d.1, x.2 + d.2)) = room n d x.
Proof.
  intros Hd [??] [??]. unfold room. simpl in *.
  destruct Hd as [-> | [-> | [-> | ->]]]; simpl in *; lia.
Qed.

Lemma inside_test n r c :
  bool_decide (0 ≤ r < Z.of_nat n) && bool_decide (0 ≤ c < Z.of_nat n)
  = bool_decide (inside n (r, c)).
Proof. rewrite <- bool_decide_and. apply bool_decide_ext. unfold inside; simpl; tauto. Qed.

Section walk.
Variable grid : list str.
Variable d : Z * Z.
Hypothesis Hsquare : square grid.
Hypothesis Hd : unit_delta d.

Let n := length grid.

(** One walk, started on an unvisited cell whose whole chain is
    unvisited: it returns, having marked and listed exactly the cells of
    the chain, numbered from [idx]. *)
Lemma walk_spec fuel : ∀ visited cells r c idx,
  shaped n visited → inside n (r, c) → (room n d (r, c) ≤ fuel)%nat →
  (∀ j : nat, (∀ i : nat, (1 ≤ i ≤ j)%nat → continues grid d (ray (r, c) d i)) →
              at2 visited (ray (r, c) d j) = Some false) →
  ∃ (m : nat) visited',
    (1 ≤ m)%nat ∧
    walk fuel grid (Z.of_nat n) d visited cells r c idx =
      Return (visited',
              cells ++ ((λ j : nat, (idx + Z.of_nat j, r + Z.of_nat j * d.1, c + Z.of_nat j * d.2))
                          <$> seq 0 m)) ∧
    shaped n visited' ∧
    (∀ i : nat, (1 ≤ i < m)%nat → continues grid d (ray (r, c) d i)) ∧
    ¬ continues grid d (ray (r, c) d m) ∧
    (∀ y, inside n y →
       at2 visited' y = Some true ↔
       at2 visited y = Some true ∨ ∃ j : nat, (j < m)%nat ∧ y = ray (r, c) d j).
Proof.
  induction fuel as [|fuel IH]; intros visited cells r c idx Hv Hin Hfuel Hfresh.
  { pose proof (room_pos n d (r, c) Hd Hin). lia. }
  destruct (shaped_at2 n visited (r, c) Hv Hin) as (vrow & seen & Hvrow & Hvlen & Hseen & Hat).
  assert (at2 visited (r, c) = Some false) as H0.
  { rewrite <- (ray_0 (r, c) d). apply Hfresh. intros; lia. }
  rewrite Hat in H0. injection H0 as ->. simpl in Hvrow, Hseen.
  destruct (shaped_insert n visited (r, c) vrow true Hv Hin Hvrow) as [Hv' Hat'].
  simpl in Hv', Hat'.
  set (visited1 := <[Z.to_nat r := <[Z.to_nat c := true]> vrow]> visited) in *.
  cbn [walk]. destruct Hin as [Hr Hc]; simpl in Hr, Hc.
  rewrite (py_get_lookup visited r vrow) by (done || lia). cbn [mbind outcome_bind].
  rewrite (py_get_lookup vrow c false) by (done || lia). cbn [mbind outcome_bind].
  rewrite py_set_insert by lia. cbn [mbind outcome_bind].
  rewrite py_set_insert by (destruct Hv; lia). cbn [mbind outcome_bind].
  fold visited1.
  assert (∀ y, inside n y → at2 visited1 y = Some true ↔
            at2 visited y = Some true ∨ ∃ j : nat, (j < 1)%nat ∧ y = ray (r, c) d j) as Hone.
  { intros y Hy. rewrite Hat' by done. destruct (decide (y = (r, c))) as [->|Hne].
    - split; [|done]. intros _. right. exists 0%nat. split; [lia|by rewrite ray_0].
    - split; [tauto|]. intros [?|(j & Hj & ->)]; [done|].
      assert (j = 0%nat) as -> by lia. by rewrite ray_0 in Hne. }
  assert (cells ++ [(idx, r, c)] =
          cells ++ ((λ j : nat, (idx + Z.of_nat j, r + Z.of_nat j * d.1, c + Z.of_nat j * d.2))
                      <$> seq 0 1)) as Hcells1.
  { simpl. do 3 f_equal; [f_equal|]; lia. }
  assert (ray (r, c) d 1 = (r + d.1, c + d.2)) as Hray1.
  { unfold ray. simpl. f_equal; lia. }
  rewrite inside_test.
  destruct (decide (inside n (r + d.1, c + d.2))) as [Hnext|Hnext]; cycle 1.
  { (* the next position leaves the board *)
    exists 1%nat, visited1. split; [done|]. split.
    { rewrite bool_decide_eq_false_2 by done. by rewrite Hcells1. }
    split; [done|]. split; [intros; lia|]. split; [|done].
    rewrite Hray1. by intros [? _]. }
  (* the next position is on the board *)
  destruct (shaped_at2 n grid _ Hsquare Hnext) as (grow & ch & Hgrow & Hglen & Hch & Hsym).
  simpl in Hgrow, Hch.
  rewrite bool_decide_eq_true_2 by done. cbn [negb].
  destruct Hnext as [Hnr Hnc]; simpl in Hnr, Hnc.
  rewrite (py_get_lookup grid _ grow) by (done || lia). cbn [mbind outcome_bind].
  rewrite (py_get_lookup grow _ ch) by (done || lia). cbn [mbind outcome_bind].
  assert (continues grid d (r + d.1, c + d.2) ↔
          (ch ∉ BULBS) ∧ DIRECTION_DELTAS !! ch = Some d) as Hcont.
  { unfold continues. fold n. split.
    - intros (_ & ch' & Hch' & ? & ?). rewrite Hsym in Hch'. by injection Hch' as <-.
    - intros [??]. split; [done|]. by exists ch. }
  destruct (decide (ch ∈ BULBS ∨ DIRECTION_DELTAS !! ch ≠ Some d)) as [Hstop|Hgo].
  { (* another bulb, or a symbol of another direction *)
    exists 1%nat, visited1. split; [done|]. split.
    { rewrite <- Hcells1. case_bool_decide; [done|].
      case_bool_decide; [done|]. tauto. }
    split; [done|]. split; [intros; lia|]. split; [|done].
    rewrite Hray1, Hcont. tauto. }
  assert ((ch ∉ BULBS) ∧ DIRECTION_DELTAS !! ch = Some d) as Hgo'.
  { split; [tauto|]. destruct (decide (DIRECTION_DELTAS !! ch = Some d)); tauto. }
  destruct Hgo' as [Hnb Hdelta].
  rewrite bool_decide_eq_false_2 by done.
  rewrite bool_decide_eq_false_2 by (intros ?; done).
  assert (inside n (r + d.1, c + d.2)) as Hnext by done.
  pose proof (room_step n d (r, c) Hd (conj Hr Hc) Hnext) as Hroom.
  change (S (room n d (r + d.1, c + d.2)) = room n d (r, c)) in Hroom.
  destruct (IH visited1 (cells ++ [(idx, r, c)]) (r + d.1) (c + d.2) (idx + 1))
    as (m & visited' & Hm & Hwalk & Hshape & Hchain & Hmax & Hvis); [done|done| | |].
  { lia. }
  { intros j Hj.
    assert (inside n (ray (r + d.1, c + d.2) d j)) as Hinj.
    { destruct j as [|j]; [by rewrite ray_0|]. apply (Hj (S j)). lia. }
    rewrite Hat' by done.
    rewrite decide_False.
    - rewrite <- (ray_S (r, c)). apply Hfresh. intros i Hi.
      destruct i as [|i]; [lia|]. destruct i as [|i].
      + rewrite Hray1. by apply Hcont.
      + rewrite ray_S. apply Hj. lia.
    - rewrite <- (ray_S (r, c)). rewrite <- (ray_0 (r, c) d) at 2.
      intros Heq%ray_inj; done. }
  exists (S m), visited'. split; [lia|]. split.
  { rewrite Hwalk. do 2 f_equal. rewrite <- app_assoc. f_equal.
    rewrite <- cons_seq, <- fmap_S_seq, fmap_cons, <- list_fmap_compose. simpl.
    f_equal; [f_equal; [f_equal|]; lia|]. apply list_fmap_ext. intros ? j _. simpl.
    f_equal; [f_equal|]; lia. }
  split; [done|]. split.
  { intros i Hi. destruct i as [|[|i]]; [lia| |].
    - rewrite Hray1. by apply Hcont.
    - rewrite ray_S. apply Hchain. lia. }
  split; [by rewrite ray_S|].
  intros y Hy. rewrite Hvis, Hone by done. split.
  - intros [[?|(j & Hj & ->)]|(j & Hj & ->)]; [by left|right..].
    + exists j. split; [lia|done].
    + exists (S j). split; [lia|]. by rewrite ray_S.
  - intros [?|(j & Hj & ->)]; [by left; left|].
    destruct j as [|j].
    + left; right. exists 0%nat. split; [lia|done].
    + right. exists j. split; [lia|]. by rewrite ray_S.
Qed.
End walk.

(** ** Loops *)

Section for_each.
Context {A S : Type}.
Implicit Types (body : A → S → outcome S).

Lemma for_each_app xs ys body s :
  for_each (xs ++ ys) body s = s' ← for_each xs body s; for_each ys body s'.
Proof.
  revert s. induction xs as [|x xs IH]; intros s; simpl; [done|].
  destruct (body x s); simpl; auto.
Qed.

Lemma for_each_ext xs body1 body2 s :
  (∀ x s, x ∈ xs → body1 x s = body2 x s) →
  for_each xs body1 s = for_each xs body2 s.
Proof.
  revert s. induction xs as [|x xs IH]; intros s Hext; simpl; [done|].
  rewrite Hext by left. destruct (body2 x s); simpl; [|done..].
  apply IH. intros; apply Hext. by right.
Qed.

(** Invariant rule: [I done s] relates the state to the elements already
    processed; a body that always returns and re-establishes it carries
    it through the whole loop. *)
Lemma for_each_inv (I : list A → S → Prop) body xs : ∀ done s,
  I done s →
  (∀ done' x rest s', done ++ xs = done' ++ x :: rest → I done' s' →
     ∃ s'', body x s' = Return s'' ∧ I (done' ++ [x]) s'') →
  ∃ s', for_each xs body s = Return s' ∧ I (done ++ xs) s'.
Proof.
  induction xs as [|x xs IH]; intros done s HI Hstep; simpl.
  - exists s. by rewrite app_nil_r.
  - destruct (Hstep done x xs s) as (s1 & -> & HI1); [done..|]. simpl.
    destruct (IH (done ++ [x]) s1) as (s2 & Hs2 & HI2); [done| |].
    + intros done' y rest s' Heq. apply (Hstep _ _ rest). by rewrite <- Heq, <- app_assoc.
    + exists s2. by rewrite <- app_assoc in HI2.
Qed.
End for_each.

Lemma for_each_fmap {A B S : Type} (f : A → B) xs (body : B → S → outcome S) s :
  for_each (f <$> xs) body s = for_each xs (λ x, body (f x)) s.
Proof.
  revert s. induction xs as [|x xs IH]; intros s; simpl; [done|].
  destruct (body (f x) s); simpl; auto.
Qed.

(** Two nested [for] loops are one loop over the pairs, in row-major order. *)
Lemma for_each_nested {A B S : Type} (xs : list A) (ys : list B)
    (body : A → B → S → outcome S) s :
  for_each xs (λ x, for_each ys (body x)) s
  = for_each (x ← xs; (pair x <$> ys)) (λ p, body p.1 p.2) s.
Proof.
  revert s. induction xs as [|x xs IH]; intros s; [done|].
  cbn [for_each mbind list_bind]. rewrite for_each_app, for_each_fmap. simpl.
  destruct (for_each ys (body x) s); simpl; auto.
Qed.

Lemma elem_of_positions n x : x ∈ positions n ↔ inside n x.
Proof.
  unfold positions, range, inside. rewrite list_elem_of_bind. split.
  - intros (r & Hx & Hr). apply list_elem_of_fmap in Hx as (c & -> & Hc).
    apply elem_of_seqZ in Hr, Hc. simpl. lia.
  - intros [Hr Hc]. exists x.1. rewrite list_elem_of_fmap, elem_of_seqZ.
    split; [|lia]. exists x.2. rewrite elem_of_seqZ. split; [by destruct x|lia].
Qed.

Lemma NoDup_positions n : NoDup (positions n).
Proof.
  unfold positions, range. apply NoDup_bind.
  - intros r1 r2 y _ _ (c1 & -> & _)%list_elem_of_fmap (c2 & Heq & _)%list_elem_of_fmap.
    by injection Heq.
  - intros r _. apply NoDup_fmap_2; [|apply NoDup_seqZ]. by intros c1 c2 [=].
  - apply NoDup_seqZ.
Qed.

(** ** Walks of different bulbs are disjoint *)

Lemma on_walk_owner grid b d b' d' x :
  bulb_at grid b d → bulb_at grid b' d' →
  on_walk grid b d x → on_walk grid b' d' x → b = b' ∧ d = d'.
Proof.
  intros (_ & cb & Hcb & Hbulb & Hdb) (_ & cb' & Hcb' & Hbulb' & Hdb')
         (k & -> & Hk) (k' & Heq & Hk').
  revert k' Heq Hk'. induction k as [|k IH]; intros k' Heq Hk'.
  - rewrite ray_0 in Heq. destruct k' as [|k'].
    + rewrite ray_0 in Heq. subst b'. split; [done|]. congruence.
    + destruct (Hk' (S k')) as (_ & ch & Hch & Hnb & _); [lia|].
      rewrite <- Heq, Hcb in Hch. by injection Hch as <-.
  - destruct (Hk (S k)) as (_ & ch & Hch & Hnb & Hdch); [lia|].
    destruct k' as [|k'].
    + rewrite ray_0 in Heq. rewrite Heq, Hcb' in Hch. by injection Hch as <-.
    + destruct (Hk' (S k')) as (_ & ch' & Hch' & _ & Hdch'); [lia|].
      rewrite <- Heq, Hch in Hch'. injection Hch' as <-.
      assert (d' = d) as -> by congruence.
      apply (IH ltac:(intros; apply Hk; lia) k'); [|intros; apply Hk'; lia].
      unfold ray in *. injection Heq as H1 H2. f_equal; lia.
Qed.

(** ** The thermometer of a bulb *)

Lemma on_walk_self grid b d : on_walk grid b d b.
Proof. exists 0%nat. split; [by rewrite ray_0|]. intros; lia. Qed.

(** The cells of a maximal chain of length [m] are the walk of its bulb. *)
Lemma on_walk_chain grid b d (m : nat) x :
  (∀ i : nat, (1 ≤ i < m)%nat → continues grid d (ray b d i)) →
  ¬ continues grid d (ray b d m) → (1 ≤ m)%nat →
  on_walk grid b d x ↔ ∃ j : nat, (j < m)%nat ∧ x = ray b d j.
Proof.
  intros Hchain Hmax Hm. split.
  - intros (k & -> & Hk). exists k. split; [|done].
    destruct (decide (k < m)%nat); [done|]. destruct Hmax. apply Hk. lia.
  - intros (j & Hj & ->). exists j. split; [done|]. intros; apply Hchain; lia.
Qed.

Lemma bulb_here_true grid x :
  bulb_here grid x = true ↔ ∃ ch, at2 grid x = Some ch ∧ ch ∈ BULBS.
Proof.
  unfold bulb_here. destruct (at2 grid x) as [ch|].
  - rewrite bool_decide_eq_true. split; [eauto|]. by intros (? & [= <-] & ?).
  - split; [done|]. by intros (? & ? & _).
Qed.

Lemma coords_snoc ths t :
  coords (ths ++ [t]) = coords ths ++ cell_coords t.
Proof. unfold coords. by rewrite bind_app, bind_singleton. Qed.

Section scan.
Variable grid : list str.
Hypothesis Hsquare : square grid.

Let n := length grid.

(** Scanning one more cell keeps [scan_inv], and never raises. *)
Lemma scan_cell_inv fuel done p rest st :
  (n ≤ fuel)%nat →
  positions n = done ++ p :: rest →
  scan_inv grid done st →
  ∃ st', scan_cell fuel grid (Z.of_nat n) p.1 p.2 st = Return st' ∧
         scan_inv grid (done ++ [p]) st'.
Proof.
  intros Hfuel Hpos Hinv. destruct st as [visited ths].
  destruct Hinv as (Hshape & Hths & Hvis & Hnodup & Hcoords). simpl in *. fold n in Hshape, Hvis, Hcoords.
  assert (inside n p) as Hin.
  { apply elem_of_positions. rewrite Hpos. apply elem_of_app. right. left. }
  assert (p ∉ done) as Hnew.
  { pose proof (NoDup_positions n) as Hnd. rewrite Hpos in Hnd.
    apply NoDup_app in Hnd as (_ & Hnd & _). intros Hp. apply (Hnd p Hp). left. }
  destruct (shaped_at2 n grid p Hsquare Hin) as (grow & ch & Hgrow & _ & Hch & Hsym).
  destruct Hin as [Hr Hc].
  unfold scan_cell.
  rewrite (py_get_lookup grid _ grow) by (done || lia). cbn [mbind outcome_bind].
  rewrite (py_get_lookup grow _ ch) by (done || lia). cbn [mbind outcome_bind].
  case_bool_decide as Hbulb; cycle 1.
  { (* not a bulb: the state is unchanged *)
    exists (visited, ths). split; [done|].
    assert (bulb_here grid p = false) as Hnot.
    { unfold bulb_here. rewrite Hsym. by apply bool_decide_eq_false_2. }
    split; [done|]. split.
    { rewrite filter_app, filter_cons_False, filter_nil, app_nil_r; [done|].
      rewrite Hnot. intros []. }
    split; [|done]. simpl. fold n. intros x Hx. rewrite Hvis by done. split.
    - intros (b & d & Hb & ?). exists b, d. split; [|done]. apply elem_of_app. by left.
    - intros (b & d & Hb & Hbd & ?). exists b, d. split; [|done].
      apply elem_of_app in Hb as [?|Hb]; [done|]. apply list_elem_of_singleton in Hb as ->.
      destruct Hbd as (_ & ch' & Hch' & ? & _). rewrite Hsym in Hch'. by injection Hch' as <-. }
  (* a bulb *)
  destruct (bulb_has_delta ch Hbulb) as (d & name & Hdelta & Hname).
  pose proof (deltas_unit ch d Hdelta) as Hd.
  assert (bulb_at grid p d) as Hbp.
  { split; [done|]. by exists ch. }
  assert (∀ x, on_walk grid p d x → inside n x → at2 visited x = Some false) as Hfree.
  { intros x Hwalk Hx.
    destruct (shaped_at2 n visited x Hshape Hx) as (_ & [] & _ & _ & _ & Hat); [|done].
    apply Hvis in Hat as (b & d' & Hb & Hbd & Hwalk'); [|done].
    destruct (on_walk_owner grid b d' p d x) as [-> _]; done. }
  destruct (shaped_at2 n visited p Hshape (conj Hr Hc)) as (vrow & seen & Hvrow & _ & Hseen & Hat).
  rewrite (Hfree p) in Hat by (done || apply on_walk_self). injection Hat as <-.
  rewrite (py_get_lookup visited _ vrow) by (done || lia). cbn [mbind outcome_bind].
  rewrite (py_get_lookup vrow _ false) by (done || lia). cbn [mbind outcome_bind].
  unfold dict_get. rewrite Hdelta, Hname. cbn [mbind outcome_bind].
  destruct p as [r c]. simpl in Hr, Hc, Hgrow, Hch, Hvrow, Hseen. cbn [fst snd].
  destruct (walk_spec grid d Hsquare Hd fuel visited [] r c 1)
    as (m & visited' & Hm & Hwalk & Hshape' & Hchain & Hmax & Hvis'); [done|done| | |].
  { pose proof (room_pos n d (r, c) Hd (conj Hr Hc)). fold n. lia. }
  { intros j Hj. apply Hfree; [by exists j|].
    destruct j as [|j]; [by rewrite ray_0|]. apply (Hj (S j)). lia. }
  fold n in Hwalk, Hshape', Hvis'.
  rewrite Hwalk. cbn [mbind outcome_bind app].
  eexists. split; [done|]. unfold scan_inv. cbn [fst snd]. fold n.
  pose proof (λ x, on_walk_chain grid (r, c) d m x Hchain Hmax Hm) as Hon.
  split; [done|]. split.
  { rewrite filter_app, filter_cons_True, filter_nil.
    - apply Forall2_app; [done|]. constructor; [|constructor].
      exists ch, d, m. simpl. done.
    - unfold bulb_here. rewrite Hsym. apply Is_true_true. by apply bool_decide_eq_true_2. }
  split.
  { intros x Hx. rewrite Hvis', Hvis, <- Hon by done. split.
    - intros [(b & d' & Hb & ?)|?].
      + exists b, d'. split; [|done]. apply elem_of_app. by left.
      + exists (r, c), d. split; [|done]. apply elem_of_app. right. left.
    - intros (b & d' & Hb & Hbd & Hwalk').
      apply elem_of_app in Hb as [?|Hb]; [left; by exists b, d'|].
      apply list_elem_of_singleton in Hb as ->. right.
      destruct Hbd as (_ & ch' & Hch' & _ & Hd'). rewrite Hsym in Hch'.
      injection Hch' as <-. congruence. }
  rewrite coords_snoc. unfold cell_coords. cbn [cells]. rewrite <- list_fmap_compose.
  rewrite (list_fmap_ext _ (ray (r, c) d) (seq 0 m)) by done.
  split.
  { apply NoDup_app. split; [done|]. split.
    - intros x Hx (j & -> & Hj)%list_elem_of_fmap.
      apply Hcoords in Hx as [Hx Hat]. rewrite Hfree in Hat; [done| |done].
      apply Hon. exists j. apply elem_of_seq in Hj. split; [lia|done].
    - apply NoDup_fmap_2_strong; [|apply NoDup_seq]. intros j k _ _. by apply ray_inj. }
  intros x. rewrite elem_of_app, Hcoords, list_elem_of_fmap. split.
  - intros [[Hx Hat]|(j & -> & Hj)].
    + split; [done|]. apply Hvis'; [done|]. by left.
    + apply elem_of_seq in Hj.
      assert (inside n (ray (r, c) d j)) as Hx.
      { destruct j as [|j]; [by rewrite ray_0|]. apply (Hchain (S j)). lia. }
      split; [done|]. apply Hvis'; [done|]. right. exists j. split; [lia|done].
  - intros [Hx Hat]. apply Hvis' in Hat as [?|(j & Hj & ->)]; [by left| |done].
    right. exists j. split; [done|]. apply elem_of_seq. lia.
Qed.

(** The first scan returns, with every bulb walked. *)
Lemma scan_bulbs_spec fuel :
  (n ≤ fuel)%nat →
  ∃ st, scan_bulbs fuel grid = Return st ∧ scan_inv grid (positions n) st.
Proof.
  intros Hfuel. unfold scan_bulbs. rewrite for_each_nested. fold n. fold (positions n).
  apply (for_each_inv (scan_inv grid) _ (positions n) []).
  - split; [|split; [|split; [|split]]]; simpl.
    + split; [by rewrite length_replicate|]. apply Forall_replicate. by rewrite length_replicate.
    + constructor.
    + intros x Hx. split; [|by intros (? & ? & []%elem_of_nil & _)].
      intros Hat. exfalso. revert Hat. unfold at2.
      destruct (replicate _ _ !! _) as [row|] eqn:Hrow; [|done].
      apply lookup_replicate in Hrow as [-> _]. simpl.
      destruct (replicate _ _ !! _) as [a|] eqn:Ha; [|done].
      by apply lookup_replicate in Ha as [-> _].
    + constructor.
    + intros x. split; [by intros ?%elem_of_nil|]. intros [Hx Hat]. exfalso.
      revert Hat. unfold at2.
      destruct (replicate _ _ !! _) as [row|] eqn:Hrow; [|done].
      apply lookup_replicate in Hrow as [-> _]. simpl.
      destruct (replicate _ _ !! _) as [a|] eqn:Ha; [|done].
      by apply lookup_replicate in Ha as [-> _].
  - intros done' x rest st Heq Hinv. simpl in Heq.
    by apply (scan_cell_inv fuel done' x rest).
Qed.
End scan.

(** ** The coverage check *)

(** The second pair of loops returns when every cell is marked, and
    otherwise raises at the first unmarked cell in row-major order. *)
Lemma check_cells_spec n visited ps :
  shaped n visited → Forall (inside n) ps →
  (Forall (λ x, at2 visited x = Some true) ps ∧
   for_each ps (λ p, check_cell visited p.1 p.2) () = Return ())
  ∨ (∃ l1 x l2, ps = l1 ++ x :: l2 ∧
       Forall (λ y, at2 visited y = Some true) l1 ∧ at2 visited x = Some false ∧
       for_each ps (λ p, check_cell visited p.1 p.2) () = Raise (UncoveredCell x.1 x.2)).
Proof.
  intros Hshape. induction 1 as [|x ps Hx Hps IH]; [by left|].
  destruct (shaped_at2 n visited x Hshape Hx) as (vrow & seen & Hvrow & _ & Hseen & Hat).
  destruct Hx as [Hr Hc].
  assert (check_cell visited x.1 x.2 () =
          if seen then Return () else Raise (UncoveredCell x.1 x.2)) as Hcheck.
  { unfold check_cell.
    rewrite (py_get_lookup visited _ vrow) by (done || lia). cbn [mbind outcome_bind].
    rewrite (py_get_lookup vrow _ seen) by (done || lia). cbn [mbind outcome_bind].
    by destruct seen. }
  cbn [for_each]. rewrite Hcheck. destruct seen; cbn [mbind outcome_bind].
  - destruct IH as [[Hall Hret]|(l1 & y & l2 & -> & Hl1 & Hy & Hraise)].
    + left. split; [by constructor|done].
    + right. exists (x :: l1), y, l2. split; [done|]. split; [by constructor|done].
  - right. by exists [], x, ps.
Qed.

(** ** What extract_thermometers computes on a square grid *)

Section extract.
Variable grid : list str.
Hypothesis Hsquare : square grid.

Let n := length grid.

Lemma visited_iff_covered st x :
  scan_inv grid (positions n) st → inside n x →
  at2 st.1 x = Some true ↔ covered grid x.
Proof.
  intros (_ & _ & Hvis & _) Hx. fold n in Hvis. rewrite Hvis by done. unfold covered. split.
  - intros (b & d & _ & ?). by exists b, d.
  - intros (b & d & Hb & ?). exists b, d. split; [|done].
    apply elem_of_positions. by destruct Hb.
Qed.

(** The call either returns the thermometers of the first scan, all
    cells being marked, or raises [UncoveredCell] at the first unmarked
    cell; nothing else happens. *)
Lemma extract_spec :
  ∃ visited ths,
    scan_inv grid (positions n) (visited, ths) ∧
    ((Forall (λ x, at2 visited x = Some true) (positions n) ∧
      extract_thermometers grid = Return ths)
     ∨ (∃ l1 x l2, positions n = l1 ++ x :: l2 ∧
          Forall (λ y, at2 visited y = Some true) l1 ∧ at2 visited x = Some false ∧
          extract_thermometers grid = Raise (UncoveredCell x.1 x.2))).
Proof.
  destruct (scan_bulbs_spec grid Hsquare n) as ([visited ths] & Hscan & Hinv); [done|].
  exists visited, ths. split; [done|].
  unfold extract_thermometers, extract_thermometers_fuel. fold n. rewrite Hscan.
  cbn [mbind outcome_bind]. rewrite for_each_nested. fold (positions n).
  destruct (check_cells_spec n visited (positions n)) as [[Hall ->]|(l1 & x & l2 & ? & ? & ? & ->)].
  - by destruct Hinv.
  - apply Forall_forall. intros x. apply elem_of_positions.
  - by left.
  - right. by exists l1, x, l2.
Qed.

Lemma extract_returns_inv ths :
  extract_thermometers grid = Return ths →
  ∃ visited, scan_inv grid (positions n) (visited, ths) ∧
             ∀ x, inside n x → at2 visited x = Some true.
Proof.
  intros Hret. destruct extract_spec as (visited & ths' & Hinv & [[Hall Heq]|(? & ? & ? & _ & _ & _ & Heq)]).
  - rewrite Heq in Hret. injection Hret as <-. exists visited. split; [done|].
    intros x Hx%elem_of_positions. by eapply (proj1 (Forall_forall _ _) Hall).
  - by rewrite Heq in Hret.
Qed.
End extract.

Lemma names_match_deltas ch name d :
  DIRECTION_NAMES !! ch = Some name → DIRECTION_DELTAS !! ch = Some d →
  step_of_name name = Some d.
Proof.
  unfold DIRECTION_NAMES, DIRECTION_DELTAS.
  intros Hname%elem_of_list_to_map_2. revert Hname.
  rewrite !elem_of_cons, elem_of_nil.
  intros H; repeat (destruct H as [H|H]; [injection H as -> ->; by intros [= <-]|]).
  done.
Qed.

Lemma NoDup_bind_owner {A B : Type} (f : A → list B) l i j a b x :
  NoDup (l ≫= f) → l !! i = Some a → l !! j = Some b →
  x ∈ f a → x ∈ f b → i = j.
Proof.
  revert i j. induction l as [|a0 l IH]; intros i j Hnd Hi Hj Ha Hb; [done|].
  rewrite bind_cons in Hnd. apply NoDup_app in Hnd as (_ & Hdisj & Hnd).
  destruct i as [|i], j as [|j]; simpl in *; [done| | |f_equal; eauto].
  - injection Hi as ->. destruct (Hdisj x Ha).
    apply list_elem_of_bind. exists b. split; [done|]. by eapply list_elem_of_lookup_2.
  - injection Hj as ->. destruct (Hdisj x Hb).
    apply list_elem_of_bind. exists a. split; [done|]. by eapply list_elem_of_lookup_2.
Qed.

Lemma first_failure_unique {A : Type} (P : A → Prop) l1 a l2 l1' b l2' :
  l1 ++ a :: l2 = l1' ++ b :: l2' →
  Forall P l1 → ¬ P a → Forall P l1' → ¬ P b → a = b.
Proof.
  revert l1'. induction l1 as [|x l1 IH]; intros [|x' l1'] Heq Hl1 Ha Hl1' Hb;
    simpl in Heq; injection Heq as -> Heq.
  - done.
  - by apply Forall_cons_1 in Hl1' as [? _].
  - by apply Forall_cons_1 in Hl1 as [? _].
  - apply Forall_cons_1 in Hl1 as [_ ?], Hl1' as [_ ?]. eauto.
Qed.

(** ** Properties of extract_thermometers *)

(** C1. When extract_thermometers returns on a square grid, the cells of
    the returned thermometers partition the n×n board: listed together
    they have no repetition, they are exactly the cells (r,c) with
    0 ≤ r,c < n, and no cell belongs to two thermometers.  (No assumption
    on the symbols of the grid is needed.) *)
Theorem extract_partition (grid : list str) (ths : list Thermometer) :
  square grid →
  extract_thermometers grid = Return ths →
  NoDup (coords ths) ∧
  (∀ x, x ∈ coords ths ↔ inside (length grid) x) ∧
  (∀ i j ti tj x,
     ths !! i = Some ti → ths !! j = Some tj →
     x ∈ cell_coords ti → x ∈ cell_coords tj → i = j).
Proof.
  intros Hsq Hret.
  destruct (extract_returns_inv grid Hsq ths Hret) as (visited & Hinv & Hall).
  destruct Hinv as (_ & _ & _ & Hnodup & Hcoords). simpl in *.
  split; [done|]. split.
  - intros x. rewrite Hcoords. split; [tauto|]. intros Hx. split; [done|]. by apply Hall.
  - intros i j ti tj x Hi Hj Hxi Hxj.
    by eapply (NoDup_bind_owner cell_coords ths i j ti tj x).
Qed.

(** C2. In every thermometer returned on a square grid, the first cell is
    the bulb, the ordinal indices are 1, 2, ..., len(cells), and each
    further cell is the previous one moved by the unit step of the
    thermometer's declared direction. *)
Theorem extract_cells_ordered (grid : list str) (ths : list Thermometer) (t : Thermometer) :
  square grid →
  extract_thermometers grid = Return ths →
  t ∈ ths →
  ∃ d, step_of_name (direction t) = Some d ∧
       (cells t).*1.*1 = seqZ 1 (Z.of_nat (length (cells t))) ∧
       cells t !! 0%nat = Some (1, bulb_row t, bulb_col t) ∧
       ∀ (i : nat) k r c k' r' c',
         cells t !! i = Some (k, r, c) → cells t !! S i = Some (k', r', c') →
         k' = k + 1 ∧ r' = r + d.1 ∧ c' = c + d.2.
Proof.
  intros Hsq Hret Ht.
  destruct (extract_returns_inv grid Hsq ths Hret) as (visited & Hinv & _).
  destruct Hinv as (_ & Hths & _). simpl in Hths.
  apply list_elem_of_lookup in Ht as [i Hi].
  destruct (Forall2_lookup_r _ _ _ _ _ Hths Hi) as (b & _ & Hof).
  destruct Hof as (ch & d & m & _ & _ & Hd & Hname & Hb & Hm & Hcells & _).
  exists d. split; [by eapply names_match_deltas|].
  rewrite Hcells. subst b. simpl. split; [|split].
  - rewrite <- !list_fmap_compose, length_fmap, length_seq.
    unfold seqZ. rewrite Nat2Z.id. apply list_fmap_ext. intros; simpl; lia.
  - destruct m as [|m]; [lia|]. simpl. do 3 f_equal; lia.
  - intros j k r c k' r' c'. rewrite !list_lookup_fmap.
    intros Hj HSj.
    destruct (seq 0 m !! j) as [a|] eqn:Ha; [|done].
    destruct (seq 0 m !! S j) as [a'|] eqn:Ha'; [|done].
    apply lookup_seq in Ha as [-> _], Ha' as [-> _].
    simpl in Hj, HSj. injection Hj as <- <- <-. injection HSj as <- <- <-. lia.
Qed.

(** C3. On a square grid extract_thermometers raises UncoveredCell exactly
    when some cell of the board lies on no bulb's walk; the coordinate it
    names is the first such cell in row-major order; and it returns
    exactly when every cell is covered. *)
Theorem extract_uncovered_iff (grid : list str) :
  square grid →
  (∀ r c, extract_thermometers grid = Raise (UncoveredCell r c) ↔
     ∃ l1 l2, positions (length grid) = l1 ++ (r, c) :: l2 ∧
              Forall (covered grid) l1 ∧ ¬ covered grid (r, c)) ∧
  ((∃ r c, extract_thermometers grid = Raise (UncoveredCell r c)) ↔
     ∃ x, inside (length grid) x ∧ ¬ covered grid x) ∧
  ((∃ ths, extract_thermometers grid = Return ths) ↔
     ∀ x, inside (length grid) x → covered grid x).
Proof.
  intros Hsq. set (n := length grid).
  destruct (extract_spec grid Hsq) as (visited & ths & Hinv & Hres). fold n in Hinv, Hres.
  pose proof (λ x, visited_iff_covered grid (visited, ths) x Hinv) as Hcov.
  fold n in Hcov. simpl in Hcov.
  assert (∀ l, Forall (inside n) l →
            Forall (λ y, at2 visited y = Some true) l ↔ Forall (covered grid) l) as HcovF.
  { intros l Hl. rewrite !Forall_forall. rewrite Forall_forall in Hl.
    split; intros H x Hx; apply Hcov; auto. }
  assert (∀ l1 x l2, positions n = l1 ++ x :: l2 → Forall (inside n) l1 ∧ inside n x) as Hsplit.
  { intros l1 x l2 Heq. split.
    - apply Forall_forall. intros y Hy. apply elem_of_positions. rewrite Heq.
      apply elem_of_app. by left.
    - apply elem_of_positions. rewrite Heq. apply elem_of_app. right. left. }
  assert (∀ x, inside n x → at2 visited x = Some false → ¬ covered grid x) as Hunc.
  { intros x Hx Hat Hc. apply Hcov in Hc; [|done]. congruence. }
  destruct Hres as [[Hall Hret]|(l1 & x & l2 & Heq & Hl1 & Hx & Hraise)].
  - (* every cell was marked *)
    assert (∀ x, inside n x → covered grid x) as Hallc.
    { intros x Hx. apply Hcov; [done|]. rewrite Forall_forall in Hall.
      by apply Hall, elem_of_positions. }
    rewrite Hret. split; [|split].
    + intros r c. split; [done|]. intros (l1 & l2 & Heq & _ & Hnc).
      destruct Hnc. by apply Hallc, (Hsplit l1 _ l2).
    + split; [by intros (? & ? & ?)|]. intros (x & Hx & Hnc). destruct Hnc. auto.
    + split; [done|]. by exists ths.
  - (* some cell was left unmarked *)
    destruct (Hsplit _ _ _ Heq) as [Hin1 Hinx].
    rewrite Hraise. split; [|split].
    + intros r c. split.
      * intros [= <- <-]. exists l1, l2. rewrite <- surjective_pairing.
        split; [done|]. split; [by apply HcovF|by apply Hunc].
      * intros (l1' & l2' & Heq' & Hl1' & Hnc).
        assert (x = (r, c)) as ->; [|done].
        eapply (first_failure_unique (covered grid) l1 x l2 l1' (r, c) l2');
          [congruence|by apply HcovF|by apply Hunc|done..].
    + split; [|by eauto]. intros _. exists x. split; [done|by apply Hunc].
    + split; [by intros (? & ?)|]. intros Hallc. destruct (Hunc x); auto.
Qed.

(** C9. On a square grid the OverlappingThermometer branch is never
    taken: whatever the symbols, extract_thermometers does not raise it. *)
Theorem extract_never_overlaps (grid : list str) (r c : Z) :
  square grid →
  extract_thermometers grid ≠ Raise (OverlappingThermometer r c).
Proof.
  intros Hsq.
  destruct (extract_spec grid Hsq) as (? & ? & _ & [[_ ->]|(? & ? & ? & _ & _ & _ & ->)]);
    discriminate.
Qed.

(** ** Termination *)

Lemma py_get_returns_or_raises {A : Type} (l : list A) i : py_get l i ≠ OutOfFuel.
Proof. unfold py_get. by destruct (_ ≫= _). Qed.

Lemma py_set_returns_or_raises {A : Type} (l : list A) i x : py_set l i x ≠ OutOfFuel.
Proof. unfold py_set. by destruct (py_norm _ _). Qed.

Ltac bind_case :=
  match goal with
  | |- context [mbind _ ?m] =>
      let H := fresh "Hcall" in
      destruct m eqn:H; cbn [mbind outcome_bind];
      [ | try done
        | try done; exfalso; revert H;
          first [apply py_get_returns_or_raises | apply py_set_returns_or_raises] ]
  end.

(** A walk started on the board in a unit direction finishes within
    [room] iterations of the loop, whatever the grid and the marks. *)
Lemma walk_terminates (grid : list str) (n : nat) (d : Z * Z) fuel :
  unit_delta d → ∀ visited cells r c idx,
  inside n (r, c) → (room n d (r, c) ≤ fuel)%nat →
  walk fuel grid (Z.of_nat n) d visited cells r c idx ≠ OutOfFuel.
Proof.
  intros Hd. induction fuel as [|fuel IH]; intros visited cells r c idx Hin Hfuel.
  { pose proof (room_pos n d (r, c) Hd Hin). lia. }
  cbn [walk]. rewrite inside_test.
  do 2 bind_case. match goal with |- context [if ?b then _ else _] => destruct b; [done|] end.
  do 2 bind_case.
  destruct (bool_decide (inside n (r + d.1, c + d.2))) eqn:Hnext; cbn [negb]; [|done].
  apply bool_decide_eq_true in Hnext.
  do 2 bind_case. do 2 (case_bool_decide; [done|]).
  apply IH; [done|]. pose proof (room_step n d (r, c) Hd Hin Hnext) as Hroom.
  change (S (room n d (r + d.1, c + d.2)) = room n d (r, c)) in Hroom. lia.
Qed.

(** A loop that finished is not changed by more fuel. *)
Lemma walk_fuel_mono (grid : list str) (size : Z) (d : Z * Z) fuel :
  ∀ fuel' visited cells r c idx,
  (fuel ≤ fuel')%nat →
  walk fuel grid size d visited cells r c idx ≠ OutOfFuel →
  walk fuel' grid size d visited cells r c idx = walk fuel grid size d visited cells r c idx.
Proof.
  induction fuel as [|fuel IH]; intros fuel' visited cells r c idx Hle Hfin; [done|].
  destruct fuel' as [|fuel']; [lia|]. revert Hfin. cbn [walk].
  do 2 bind_case. match goal with |- context [if ?b then _ else _] => destruct b; [done|] end.
  do 2 bind_case. match goal with |- context [if ?b then _ else _] => destruct b; [done|] end.
  do 2 bind_case. do 2 (case_bool_decide; [done|]).
  intros Hfin. apply IH; [lia|done].
Qed.

Lemma scan_cell_fuel (grid : list str) (n fuel : nat) row col st :
  inside n (row, col) → (n ≤ fuel)%nat →
  scan_cell fuel grid (Z.of_nat n) row col st = scan_cell n grid (Z.of_nat n) row col st ∧
  scan_cell n grid (Z.of_nat n) row col st ≠ OutOfFuel.
Proof.
  intros Hin Hfuel. unfold scan_cell. destruct st as [visited ths].
  destruct (py_get grid row) as [grow| |] eqn:Hgrow; cbn [mbind outcome_bind]; [|done|].
  2:{ by destruct (py_get_returns_or_raises grid row). }
  destruct (py_get grow col) as [ch| |] eqn:Hch; cbn [mbind outcome_bind]; [|done|].
  2:{ by destruct (py_get_returns_or_raises grow col). }
  case_bool_decide; [|done].
  destruct (py_get visited row) as [vrow| |] eqn:Hvrow; cbn [mbind outcome_bind]; [|done|].
  2:{ by destruct (py_get_returns_or_raises visited row). }
  destruct (py_get vrow col) as [[]| |] eqn:Hseen; cbn [mbind outcome_bind]; [done| |done|].
  2:{ by destruct (py_get_returns_or_raises vrow col). }
  unfold dict_get. destruct (DIRECTION_DELTAS !! ch) as [d|] eqn:Hd; cbn [mbind outcome_bind]; [|done].
  destruct (DIRECTION_NAMES !! ch) as [name|]; cbn [mbind outcome_bind]; [|done].
  apply deltas_unit in Hd.
  assert (walk n grid (Z.of_nat n) d visited [] row col 1 ≠ OutOfFuel) as Hfin.
  { apply walk_terminates; [done..|]. pose proof (room_pos n d (row, col) Hd Hin). lia. }
  rewrite (walk_fuel_mono grid (Z.of_nat n) d n fuel) by done.
  split; [done|]. by destruct (walk n _ _ _ _ _ _ _ _) as [[??]| |].
Qed.

Lemma for_each_terminates {A S : Type} (xs : list A) (body : A → S → outcome S) s :
  (∀ x s, x ∈ xs → body x s ≠ OutOfFuel) → for_each xs body s ≠ OutOfFuel.
Proof.
  revert s. induction xs as [|x xs IH]; intros s Hbody; simpl; [done|].
  destruct (body x s) as [s'| |] eqn:Hx; simpl; [|done|].
  - apply IH. intros; apply Hbody. by right.
  - destruct (Hbody x s); [left|done].
Qed.

(** C10. extract_thermometers terminates: run with fuel [len(grid)] for
    each walk it is never cut short, and any larger amount of fuel gives
    the same outcome.  So each walk makes at most n iterations, and the two
    scans are loops over the n*n cells.  (This holds for every grid, square
    or not.) *)
Theorem extract_thermometers_terminates (grid : list str) :
  extract_thermometers grid ≠ OutOfFuel ∧
  ∀ fuel, (length grid ≤ fuel)%nat →
          extract_thermometers_fuel fuel grid = extract_thermometers grid.
Proof.
  set (n := length grid).
  assert (∀ p : Z * Z, p ∈ positions n → inside n (p.1, p.2)) as Hpos.
  { intros [??]. apply elem_of_positions. }
  split.
  - unfold extract_thermometers, extract_thermometers_fuel, scan_bulbs. fold n.
    rewrite !for_each_nested. fold (positions n).
    destruct (for_each (positions n) _ _) as [[visited ths]| |] eqn:Hscan;
      cbn [mbind outcome_bind]; [|done|].
    + rewrite for_each_nested. fold (positions n).
      destruct (for_each (positions n) (λ p, check_cell visited p.1 p.2) ())
        as [[]| |] eqn:Hcheck; cbn [mbind outcome_bind]; [done..|].
      exfalso. revert Hcheck. apply for_each_terminates. intros x [] _. unfold check_cell.
      do 2 bind_case. by match goal with |- context [if ?b then _ else _] => destruct b end.
    + exfalso. revert Hscan. apply for_each_terminates. intros x s Hx.
      by apply (scan_cell_fuel grid n n); [apply Hpos|].
  - intros fuel Hfuel.
    unfold extract_thermometers, extract_thermometers_fuel, scan_bulbs. fold n.
    rewrite !for_each_nested. fold (positions n).
    rewrite (for_each_ext (positions n) _
               (λ p, scan_cell n grid (Z.of_nat n) p.1 p.2)); [done|].
    intros x s Hx. by apply (scan_cell_fuel grid n fuel); [apply Hpos|].
Qed.

(** ** Adjacent bulbs *)

Lemma extract_returns_covered (grid : list str) ths :
  square grid → extract_thermometers grid = Return ths →
  ∀ x, inside (length grid) x → covered grid x.
Proof.
  intros Hsq Hret x Hx.
  destruct (extract_returns_inv grid Hsq ths Hret) as (visited & Hinv & Hall).
  apply (visited_iff_covered grid (visited, ths) x Hinv Hx). by apply Hall.
Qed.

Lemma covered_extract_returns (grid : list str) :
  square grid → (∀ x, inside (length grid) x → covered grid x) →
  ∃ ths, extract_thermometers grid = Return ths.
Proof.
  intros Hsq Hall.
  destruct (extract_spec grid Hsq) as (visited & ths & Hinv & [[_ ?]|(l1 & x & l2 & Heq & _ & Hx & _)]);
    [by exists ths|].
  assert (inside (length grid) x) as Hin.
  { apply elem_of_positions. rewrite Heq. apply elem_of_app. right. left. }
  pose proof (Hall x Hin) as Hc.
  apply (visited_iff_covered grid (visited, ths) x Hinv Hin) in Hc. simpl in Hc. congruence.
Qed.

(** Every bulb of the board has its thermometer in the result, at the
    rank of the bulb among the bulbs in row-major order. *)
Lemma extract_bulb_thermometer (grid : list str) ths p :
  square grid → extract_thermometers grid = Return ths →
  inside (length grid) p → bulb_here grid p = true →
  ∃ i t, filter (λ x, bulb_here grid x) (positions (length grid)) !! i = Some p ∧
         ths !! i = Some t ∧ thermometer_of grid p t.
Proof.
  intros Hsq Hret Hin Hbulb.
  destruct (extract_returns_inv grid Hsq ths Hret) as (visited & Hinv & _).
  destruct Hinv as (_ & Hths & _). simpl in Hths.
  assert (p ∈ filter (λ x, bulb_here grid x) (positions (length grid))) as Hp.
  { apply list_elem_of_filter. split; [by rewrite Hbulb|by apply elem_of_positions]. }
  apply list_elem_of_lookup in Hp as [i Hi].
  destruct (Forall2_lookup_l _ _ _ _ _ Hths Hi) as (t & Ht & Hof).
  by exists i, t.
Qed.

(** The thermometer of a bulb is the bulb alone exactly when the walk
    cannot step into the next cell. *)
Lemma thermometer_of_unit (grid : list str) p d t :
  thermometer_of grid p t → delta_at grid p = Some d →
  cells t !! 0%nat = Some (1, p.1, p.2) ∧
  (length (cells t) = 1%nat ↔ ¬ continues grid d (ray p d 1)).
Proof.
  intros (ch & d' & m & Hch & _ & Hd' & _ & _ & Hm & Hcells & Hchain & Hmax) Hd.
  unfold delta_at in Hd. rewrite Hch in Hd. simpl in Hd.
  assert (d' = d) as -> by congruence.
  rewrite Hcells, length_fmap, length_seq. split.
  - destruct m as [|m]; [lia|]. simpl. do 3 f_equal; lia.
  - split; [by intros ->|]. intros Hstop.
    destruct (decide (m = 1%nat)) as [|Hne]; [done|]. destruct Hstop. apply Hchain. lia.
Qed.

(** C5, as amended.  On a square grid whose cells are all covered and that
    has bulbs at two adjacent cells p and q, extract_thermometers returns
    (so it does not raise OverlappingThermometer); the result has one entry
    for the bulb at p and another one for the bulb at q, each beginning
    with its own bulb cell at index 1; and the entry of a bulb has exactly
    one cell if and only if the walk cannot step into the cell after the
    bulb (it is off the board, a bulb, or a symbol of another direction),
    in particular when the bulb points at the other bulb. *)
Theorem adjacent_bulbs_separate (grid : list str) (p q dp dq : Z * Z) :
  square grid →
  (∀ x, inside (length grid) x → covered grid x) →
  inside (length grid) p → inside (length grid) q →
  bulb_here grid p = true → bulb_here grid q = true →
  delta_at grid p = Some dp → delta_at grid q = Some dq →
  adjacent p q →
  ∃ ths (i j : nat) tp tq,
    extract_thermometers grid = Return ths ∧
    i ≠ j ∧ ths !! i = Some tp ∧ ths !! j = Some tq ∧
    (bulb_row tp, bulb_col tp) = p ∧ (bulb_row tq, bulb_col tq) = q ∧
    cells tp !! 0%nat = Some (1, p.1, p.2) ∧
    cells tq !! 0%nat = Some (1, q.1, q.2) ∧
    (length (cells tp) = 1%nat ↔ ¬ continues grid dp (ray p dp 1)) ∧
    (length (cells tq) = 1%nat ↔ ¬ continues grid dq (ray q dq 1)) ∧
    (ray p dp 1 = q → length (cells tp) = 1%nat) ∧
    (ray q dq 1 = p → length (cells tq) = 1%nat).
Proof.
  intros Hsq Hcov Hp Hq Hbp Hbq Hdp Hdq Hadj.
  destruct (covered_extract_returns grid Hsq Hcov) as [ths Hret].
  destruct (extract_bulb_thermometer grid ths p Hsq Hret Hp Hbp) as (i & tp & Hi & Htp & Hofp).
  destruct (extract_bulb_thermometer grid ths q Hsq Hret Hq Hbq) as (j & tq & Hj & Htq & Hofq).
  destruct (thermometer_of_unit grid p dp tp Hofp Hdp) as [Hp0 Hp1].
  destruct (thermometer_of_unit grid q dq tq Hofq Hdq) as [Hq0 Hq1].
  assert (∀ x d y, bulb_here grid y = true → ray x d 1 = y → ¬ continues grid d (ray x d 1)) as Hstop.
  { intros x d y (ch & Hch & Hbulb)%bulb_here_true -> (_ & ch' & Hch' & Hnb & _).
    rewrite Hch in Hch'. by injection Hch' as <-. }
  exists ths, i, j, tp, tq. split; [done|]. split.
  { intros ->. rewrite Hi in Hj. injection Hj as ->. unfold adjacent in Hadj. lia. }
  do 2 (split; [done|]).
  split. { by destruct Hofp as (? & ? & ? & _ & _ & _ & _ & ? & _). }
  split. { by destruct Hofq as (? & ? & ? & _ & _ & _ & _ & ? & _). }
  do 4 (split; [done|]). split.
  - intros Hnext. apply Hp1. exact (Hstop p dp q Hbq Hnext).
  - intros Hnext. apply Hq1. exact (Hstop q dq p Hbp Hnext).
Qed.

(** ** Properties of the parser *)

Lemma split_go_tokens s : ∀ cur,
  Forall (λ c, is_space c = false) cur →
  Forall (λ tok, tok ≠ [] ∧ Forall (λ c, is_space c = false) tok) (split_go cur s) ∧
  concat (split_go cur s) = cur ++ List.filter (λ c, negb (is_space c)) s.
Proof.
  induction s as [|c s IH]; intros cur Hcur; simpl.
  - destruct cur; simpl; [done|]. rewrite !app_nil_r. split; [|done].
    constructor; [|constructor]. done.
  - destruct (is_space c) eqn:Hc; simpl.
    + destruct (IH [] ltac:(constructor)) as [Htok Hcat]. destruct cur as [|c0 cur]; [done|].
      split; [constructor; [done|done]|]. simpl. by rewrite Hcat.
    + destruct (IH (cur ++ [c])) as [Htok Hcat].
      { apply Forall_app. split; [done|]. by constructor. }
      split; [done|]. by rewrite Hcat, <- app_assoc.
Qed.

(** C6. parse_targets splits the line on whitespace (the tokens are the
    non-empty whitespace-free pieces of the line, in order) and parses each
    token with int: if some token is not an integer it raises
    InvalidTargetValue; if all are and their number differs from the
    expected size it raises TargetCountMismatch; otherwise it returns the
    parsed integers, whatever their values. *)
Theorem parse_targets_spec (py_int : str → option Z) (line : str) (expected : Z) (kind : str) :
  let tokens := split line in
  (Forall (λ tok, tok ≠ [] ∧ Forall (λ c, is_space c = false) tok) tokens ∧
   concat tokens = List.filter (λ c, negb (is_space c)) line) ∧
  ((∃ tok, tok ∈ tokens ∧ py_int tok = None) ∨
   (∃ values, Forall2 (λ tok v, py_int tok = Some v) tokens values)) ∧
  ((∃ tok, tok ∈ tokens ∧ py_int tok = None) →
   parse_targets py_int line expected kind = Raise (InvalidTargetValue kind line)) ∧
  (∀ values, Forall2 (λ tok v, py_int tok = Some v) tokens values →
     (Z.of_nat (length tokens) ≠ expected →
      parse_targets py_int line expected kind =
        Raise (TargetCountMismatch expected kind (Z.of_nat (length tokens)) line)) ∧
     (Z.of_nat (length tokens) = expected →
      parse_targets py_int line expected kind = Return values)).
Proof.
  intros tokens. split; [|split; [|split]].
  - by apply (split_go_tokens line []).
  - destruct (mapM py_int tokens) as [values|] eqn:Hm.
    + right. exists values. by apply mapM_Some.
    + left. apply mapM_None_1 in Hm. apply Exists_exists in Hm as (tok & ? & ?).
      by exists tok.
  - intros Hbad. unfold parse_targets. fold tokens.
    by rewrite (mapM_None_2 py_int tokens) by by apply Exists_exists.
  - intros values Hall. pose proof (Forall2_length _ _ _ Hall) as Hlen.
    unfold parse_targets. fold tokens. rewrite (mapM_Some_2 py_int tokens values Hall).
    rewrite <- Hlen. split; intros ?.
    + by rewrite bool_decide_eq_true_2.
    + by rewrite bool_decide_eq_false_2 by (intros ?; done).
Qed.

Lemma parse_targets_witness :
  parse_targets int_decimal (lit "-3  0 7") 3 (lit "row") = Return [-3; 0; 7].
Proof.
  apply (parse_targets_spec int_decimal (lit "-3  0 7") 3 (lit "row")).
  - repeat constructor.
  - reflexivity.
Defined.

Lemma classify_keeps_alphabet raw_lines : ∀ st,
  Forall (Forall (λ c, c ∈ ALLOWED_CHARS)) st.1 →
  Forall (Forall (λ c, c ∈ ALLOWED_CHARS)) (foldl (λ st raw, classify_line st raw) st raw_lines).1.
Proof.
  induction raw_lines as [|raw raw_lines IH]; intros [grid_lines number_lines] Hst; [done|].
  simpl. apply IH. simpl in Hst. destruct (strip raw) as [|c line] eqn:Hline; [done|].
  case_bool_decide as Hsub; [|done]. simpl.
  apply Forall_app. split; [done|]. constructor; [|constructor].
  apply Forall_forall. intros x Hx. apply Hsub. by apply elem_of_list_to_set.
Qed.

Lemma check_row_outcome size row :
  Forall (λ c, c ∈ ALLOWED_CHARS) row →
  check_row size row () = Return () ∨ check_row size row () = Raise NonSquareGrid.
Proof.
  intros Hrow. unfold check_row. case_bool_decide as Hlen; [by right|]. left. clear Hlen.
  induction Hrow as [|c row Hc Hrow IH]; [done|].
  cbn [for_each]. rewrite bool_decide_eq_false_2 by (intros Hn; by apply Hn).
  cbn [mbind outcome_bind]. apply IH.
Qed.

Lemma check_rows_outcome size rows :
  Forall (Forall (λ c, c ∈ ALLOWED_CHARS)) rows →
  for_each rows (check_row size) () = Return () ∨
  for_each rows (check_row size) () = Raise NonSquareGrid.
Proof.
  induction 1 as [|row rows Hrow Hrows IH]; [by left|].
  cbn [for_each]. destruct (check_row_outcome size row Hrow) as [-> | ->]; [done|by right].
Qed.

(** C4.  The InvalidSymbol failure of parse_instance cannot happen: a line
    with a character outside the alphabet is filed with the target lines,
    so the rows that reach the character check hold only alphabet symbols.
    A 2×2 grid with one foreign character is reported as not square. *)
Theorem parse_instance_invalid_symbol_dead (py_int : str → option Z) :
  parse_instance py_int
    (lit "UX" ++ nl ++ lit "DD" ++ nl ++ lit "1 1" ++ nl ++ lit "1 1" ++ nl)
  = Raise NonSquareGrid ∧
  ∀ text char, parse_instance py_int text ≠ Raise (InvalidSymbol char).
Proof.
  split; [reflexivity|]. intros text char. unfold parse_instance.
  pose proof (classify_keeps_alphabet (splitlines text) ([], []) ltac:(constructor)) as Hgrid.
  destruct (foldl classify_line _ _) as [grid_lines number_lines]. simpl in Hgrid.
  destruct grid_lines as [|row rows]; [done|].
  destruct (check_rows_outcome (Z.of_nat (length (row :: rows))) (row :: rows) Hgrid) as [-> | ->];
    cbn [mbind outcome_bind]; [|done].
  case_bool_decide; [done|].
  unfold py_get, parse_targets.
  repeat (match goal with
          | |- context [match ?x with _ => _ end] => destruct x
          | |- context [bool_decide ?P] => destruct (bool_decide P)
          end; cbn [mbind outcome_bind]; try done).
Qed.

(** ** Properties of the renderer *)

Lemma lstrip_head s c : head (lstrip s) = Some c → is_space c = false.
Proof.
  induction s as [|a s IH]; simpl; [done|].
  destruct (is_space a) eqn:Ha; [done|]. simpl. by intros [= <-].
Qed.

Lemma lstrip_keeps s c t : is_space c = false → lstrip (s ++ c :: t) ≠ [].
Proof.
  intros Hc. induction s as [|a s IH]; simpl; [by rewrite Hc|]. by destruct (is_space a).
Qed.

Lemma rstrip_last s c : last (rstrip s) = Some c → is_space c = false.
Proof. unfold rstrip. rewrite last_reverse. apply lstrip_head. Qed.

Lemma rstrip_keeps c s : is_space c = false → rstrip (c :: s) ≠ [].
Proof.
  intros Hc Hnil. unfold rstrip in Hnil.
  apply (f_equal reverse) in Hnil. rewrite reverse_involutive, reverse_cons in Hnil.
  by apply (lstrip_keeps (reverse s) c []) in Hnil.
Qed.

Lemma join_cons_head sep x xs : ∃ rest, join sep (x :: xs) = x ++ rest.
Proof. destruct xs; simpl; [exists []; by rewrite app_nil_r|eauto]. Qed.

Lemma splitlines_go_nonempty s : ∀ cur, cur ≠ [] ∨ s ≠ [] → splitlines_go cur s ≠ [].
Proof.
  induction s as [|a s IH]; intros cur Hne; simpl.
  - destruct Hne as [?|?]; [by destruct cur|done].
  - destruct (is_linebreak a); [done|]. apply IH. left. by destruct cur.
Qed.

(** The last line of a text that ends with a character that is no line
    boundary, followed by one newline, is not empty. *)
Lemma splitlines_last_nonblank (n : nat) : ∀ s cur l c,
  (length s ≤ n)%nat → is_linebreak c = false →
  last (splitlines_go cur (s ++ c :: nl)) = Some l → l ≠ [].
Proof.
  induction n as [|n IH]; intros s cur l c Hlen Hc.
  - destruct s; [|simpl in Hlen; lia]. simpl. rewrite Hc. simpl.
    intros [= <-]. by destruct cur.
  - destruct s as [|a s].
    { simpl. rewrite Hc. simpl. intros [= <-]. by destruct cur. }
    cbn [app splitlines_go]. simpl in Hlen.
    destruct (is_linebreak a) eqn:Ha; [|apply IH; [lia|done]].
    assert (∃ s1, (length s1 ≤ n)%nat ∧
              match s ++ c :: nl with
              | d :: s'' =>
                  if bool_decide (a = "013"%char ∧ d = "010"%char)
                  then splitlines_go [] s'' else splitlines_go [] (s ++ c :: nl)
              | [] => []
              end = splitlines_go [] (s1 ++ c :: nl)) as (s1 & Hlen1 & ->).
    { destruct s as [|b s]; simpl.
      - exists []. split; [lia|]. rewrite bool_decide_eq_false_2; [done|].
        intros [_ ->]. done.
      - case_bool_decide; [exists s|exists (b :: s)]; (split; [simpl in *; lia|done]). }
    rewrite last_cons.
    destruct (last (splitlines_go [] (s1 ++ c :: nl))) as [l'|] eqn:Hl'.
    + intros [= <-]. by eapply (IH s1 []).
    + apply last_None, splitlines_go_nonempty in Hl'; [done|]. right. by destruct s1.
Qed.

Lemma render_lines_first grid column_targets row_targets thermometers :
  ∃ rest, render_lines grid column_targets row_targets thermometers
          = (lit "#const n=" ++ str_of_Z (Z.of_nat (length grid)) ++ lit ".") :: rest.
Proof. by eexists. Qed.

Lemma linebreak_is_space c : is_linebreak c = true → is_space c = true.
Proof. by destruct c as [[] [] [] [] [] [] [] []]. Qed.

(** C8. The text returned by render_facts, for any arguments, ends with
    exactly one newline: its last character is a newline, the character
    before it exists and is not whitespace (so not a newline), and its last
    line is not blank. *)
Theorem render_facts_one_final_newline (grid : list str)
    (column_targets row_targets : list Z) (thermometers : list Thermometer) :
  let out := render_facts grid column_targets row_targets thermometers in
  (∃ body c, out = body ++ [c] ++ nl ∧ is_space c = false ∧ c ≠ "010"%char) ∧
  (∀ l, last (splitlines out) = Some l → l ≠ []).
Proof.
  intros out. unfold out, render_facts.
  set (text := join nl (render_lines grid column_targets row_targets thermometers)).
  assert (rstrip text ≠ []) as Hne.
  { destruct (render_lines_first grid column_targets row_targets thermometers) as [rest Hfirst].
    unfold text. rewrite Hfirst.
    destruct (join_cons_head nl (lit "#const n=" ++ str_of_Z (Z.of_nat (length grid)) ++ lit ".")
                rest) as [rest' ->].
    by apply rstrip_keeps. }
  destruct (last (rstrip text)) as [c|] eqn:Hlast; [|by apply last_None in Hlast].
  pose proof (rstrip_last text c Hlast) as Hc.
  apply last_Some in Hlast as [body Hbody]. rewrite Hbody.
  assert (is_linebreak c = false) as Hlb.
  { destruct (is_linebreak c) eqn:Hlb; [|done]. apply linebreak_is_space in Hlb. congruence. }
  split.
  - exists body, c. rewrite <- app_assoc. split; [done|]. split; [done|]. by intros ->.
  - intros l. unfold splitlines. rewrite <- app_assoc.
    by apply (splitlines_last_nonblank (length body) body [] l c).
Qed.

(** *** The lines of the rendered text *)

Lemma one_line_app s t : one_line (s ++ t) = one_line s && one_line t.
Proof. apply forallb_app. Qed.

Lemma one_line_uint d : one_line (lit (NilEmpty.string_of_uint d)) = true.
Proof. induction d; simpl; auto. Qed.

Lemma one_line_str_of_Z i : one_line (str_of_Z i) = true.
Proof.
  unfold str_of_Z. destruct (Z.to_int i) as [d|d]; simpl.
  - destruct d; try apply (one_line_uint (_ _)); done.
  - destruct d; try apply (one_line_uint (_ _)); done.
Qed.

Lemma one_line_direction ch name : DIRECTION_NAMES !! ch = Some name → one_line name = true.
Proof.
  unfold DIRECTION_NAMES. intros H%elem_of_list_to_map_2. revert H.
  rewrite !elem_of_cons, elem_of_nil.
  intros H; repeat (destruct H as [H|H]; [by injection H as -> ->|]). done.
Qed.

Ltac fact_line :=
  cbv beta zeta; split;
  [ rewrite ?one_line_app, ?one_line_str_of_Z; try reflexivity
  | right; rewrite ?last_app; reflexivity ].

Lemma thermo_lines_fact t :
  one_line (direction t) = true → Forall fact_line (thermo_lines t).
Proof.
  intros Hdir. unfold thermo_lines. cbv zeta. cbn [app].
  repeat (apply Forall_cons; split; [fact_line; rewrite ?Hdir; reflexivity|]).
  apply Forall_app. split.
  - apply Forall_fmap, Forall_forall. intros c _. fact_line.
  - constructor; [|constructor]. split; [done|by left].
Qed.

Lemma render_lines_fact grid column_targets row_targets thermometers :
  Forall (λ t, one_line (direction t) = true) thermometers →
  Forall fact_line (render_lines grid column_targets row_targets thermometers).
Proof.
  intros Hdirs. unfold render_lines.
  assert (fact_line []) as Hblank by (split; [done|by left]).
  repeat (apply Forall_app; split); repeat (apply Forall_cons; split); try apply Forall_nil;
    try done.
  - fact_line.
  - apply Forall_fmap, Forall_forall. intros r _. unfold row_line. fact_line.
  - apply Forall_fmap, Forall_forall. intros c _. unfold col_line. fact_line.
  - apply Forall_bind, Forall_forall. intros r _.
    apply Forall_fmap, Forall_forall. intros c _. unfold cell_line. fact_line.
  - apply Forall_forall. intros l (i & v & -> & _)%elem_of_lookup_imap. fact_line.
  - apply Forall_forall. intros l (i & v & -> & _)%elem_of_lookup_imap. fact_line.
  - apply Forall_bind. eapply Forall_impl; [exact Hdirs|]. intros t. apply thermo_lines_fact.
Qed.

Lemma trailing_blanks (lines : list str) :
  ∃ core (k : nat), lines = core ++ replicate k [] ∧
                    (core = [] ∨ ∃ front l, core = front ++ [l] ∧ l ≠ []).
Proof.
  induction lines as [|x lines IH] using rev_ind.
  - exists [], 0%nat. split; [done|by left].
  - destruct x as [|c x].
    + destruct IH as (core & k & -> & Hcore). exists core, (S k). split; [|done].
      by rewrite replicate_S_end, app_assoc.
    + exists (lines ++ [c :: x]), 0%nat. split; [by rewrite app_nil_r|].
      right. by exists lines, (c :: x).
Qed.

Lemma join_snoc sep xs x : xs ≠ [] → join sep (xs ++ [x]) = join sep xs ++ sep ++ x.
Proof.
  induction xs as [|a xs IH]; intros Hne; [done|].
  destruct xs as [|b xs]; [done|].
  change (join sep ((a :: b :: xs) ++ [x])) with (a ++ sep ++ join sep ((b :: xs) ++ [x])).
  rewrite IH by done. change (join sep (a :: b :: xs)) with (a ++ sep ++ join sep (b :: xs)).
  by rewrite <- !app_assoc.
Qed.

Lemma join_blanks core (k : nat) :
  core ≠ [] → join nl (core ++ replicate k []) = join nl core ++ replicate k "010"%char.
Proof.
  intros Hne. induction k as [|k IH]; [by rewrite !app_nil_r|].
  rewrite !replicate_S_end, app_assoc, join_snoc, IH.
  - by rewrite app_nil_r, <- app_assoc.
  - by destruct core.
Qed.

Lemma lstrip_spaces w s : Forall (λ c, is_space c = true) w → lstrip (w ++ s) = lstrip s.
Proof. induction 1 as [|c w Hc _ IH]; [done|]. simpl. by rewrite Hc. Qed.

Lemma rstrip_spaces s w : Forall (λ c, is_space c = true) w → rstrip (s ++ w) = rstrip s.
Proof.
  intros Hw. unfold rstrip. rewrite reverse_app, lstrip_spaces; [done|].
  by apply Forall_reverse.
Qed.

Lemma rstrip_stop s c : is_space c = false → rstrip (s ++ [c]) = s ++ [c].
Proof.
  intros Hc. unfold rstrip. rewrite reverse_snoc. simpl. rewrite Hc.
  by rewrite reverse_cons, reverse_involutive.
Qed.

Lemma splitlines_go_line x : ∀ cur rest,
  one_line x = true →
  splitlines_go cur (x ++ nl ++ rest) = (cur ++ x) :: splitlines_go [] rest.
Proof.
  induction x as [|c x IH]; intros cur rest Hx.
  - rewrite app_nil_r. simpl. by destruct rest.
  - simpl in Hx. apply andb_true_iff in Hx as [Hc Hx]. apply negb_true_iff in Hc.
    cbn [app splitlines_go]. rewrite Hc, IH by done. by rewrite <- app_assoc.
Qed.

Lemma splitlines_join core :
  Forall (λ l, one_line l = true) core → core ≠ [] →
  splitlines (join nl core ++ nl) = core.
Proof.
  unfold splitlines. induction 1 as [|x core Hx Hcore IH]; intros Hne; [done|].
  destruct core as [|y core].
  - simpl. rewrite <- (app_nil_r nl) at 1. rewrite (splitlines_go_line x [] []) by done.
    done.
  - change (join nl (x :: y :: core)) with (x ++ nl ++ join nl (y :: core)).
    rewrite <- !app_assoc, splitlines_go_line by done. simpl. f_equal. by apply IH.
Qed.

(** The lines of the text are the lines that were joined, without the
    blank lines at the end. *)
Lemma splitlines_rendered (lines : list str) :
  Forall fact_line lines → (∃ l, l ∈ lines ∧ l ≠ []) →
  ∃ k : nat, lines = splitlines (rstrip (join nl lines) ++ nl) ++ replicate k [].
Proof.
  intros Hlines (l0 & Hl0 & Hne0).
  destruct (trailing_blanks lines) as (core & k & -> & [->|(front & l & -> & Hl)]).
  { apply elem_of_replicate in Hl0 as [-> _]. done. }
  exists k. f_equal.
  apply Forall_app in Hlines as [Hcore _].
  assert (fact_line l) as [_ [->|Hdot]]; [|done|].
  { apply Forall_app in Hcore as [_ Hl']. by apply Forall_cons_1 in Hl' as [? _]. }
  apply last_Some in Hdot as [l' ->].
  rewrite join_blanks by by destruct front.
  rewrite rstrip_spaces by (apply Forall_replicate; reflexivity).
  assert (∃ pre, join nl (front ++ [l' ++ ["."%char]]) = pre ++ ["."%char]) as [pre Hpre].
  { destruct front as [|a front]; [by exists l'|].
    rewrite join_snoc by done. exists (join nl (a :: front) ++ nl ++ l').
    by rewrite <- !app_assoc. }
  rewrite Hpre, rstrip_stop, <- Hpre by done. symmetry.
  apply splitlines_join; [|by destruct front].
  eapply Forall_impl; [exact Hcore|]. by intros ? [? _].
Qed.

Lemma filter_all {A : Type} (P : A → bool) l :
  Forall (λ x, P x = true) l → List.filter P l = l.
Proof. induction 1 as [|x l Hx _ IH]; simpl; [done|]. by rewrite Hx, IH. Qed.

Lemma filter_none {A : Type} (P : A → bool) l :
  Forall (λ x, P x = false) l → List.filter P l = [].
Proof. induction 1 as [|x l Hx _ IH]; simpl; [done|]. by rewrite Hx, IH. Qed.

Lemma filter_const {A : Type} (P : A → bool) (b : bool) l :
  Forall (λ x, P x = b) l → List.filter P l = if b then l else [].
Proof. destruct b; [apply filter_all|apply filter_none]. Qed.

Lemma length_bind_const {A B : Type} (f : A → list B) (m : nat) l :
  (∀ x, length (f x) = m) → length (l ≫= f) = (length l * m)%nat.
Proof.
  intros Hf. induction l as [|x l IH]; [done|].
  rewrite bind_cons, length_app, Hf, IH. simpl. lia.
Qed.

(** Selecting lines of [render_lines] by a test that rejects everything
    but, possibly, the three kinds of board facts. *)
Lemma filter_render_lines (P : str → bool) (b_row b_col b_cell : bool)
    grid column_targets row_targets thermometers :
  P [] = false →
  (∀ z, P (lit "#const n=" ++ str_of_Z z ++ lit ".") = false) →
  (∀ r, P (row_line r) = b_row) →
  (∀ c, P (col_line c) = b_col) →
  (∀ r c, P (cell_line r c) = b_cell) →
  (∀ i v, P (lit "col_target(" ++ str_of_Z i ++ lit "," ++ str_of_Z v ++ lit ").") = false) →
  (∀ i v, P (lit "row_target(" ++ str_of_Z i ++ lit "," ++ str_of_Z v ++ lit ").") = false) →
  (∀ t l, l ∈ thermo_lines t → P l = false) →
  let size := Z.of_nat (length grid) in
  List.filter P (render_lines grid column_targets row_targets thermometers)
  = (if b_row then row_line <$> range size else [])
    ++ (if b_col then col_line <$> range size else [])
    ++ (if b_cell then row ← range size; (cell_line row <$> range size) else []).
Proof.
  intros Hblank Hconst Hrow Hcol Hcell Hct Hrt Hth size. unfold render_lines. fold size.
  rewrite !List.filter_app.
  rewrite (filter_none P [_; []]) by (by repeat constructor).
  rewrite !(filter_none P [[]]) by (by repeat constructor).
  rewrite (filter_const P b_row (row_line <$> _))
    by (apply Forall_fmap, Forall_forall; intros ? _; apply Hrow).
  rewrite (filter_const P b_col (col_line <$> _))
    by (apply Forall_fmap, Forall_forall; intros ? _; apply Hcol).
  rewrite (filter_const P b_cell (_ ≫= _)); cycle 1.
  { apply Forall_bind, Forall_forall. intros r _.
    apply Forall_fmap, Forall_forall. intros ? _. apply Hcell. }
  rewrite (filter_none P (imap _ column_targets)); cycle 1.
  { apply Forall_forall. intros l (i & v & -> & _)%elem_of_lookup_imap. apply Hct. }
  rewrite (filter_none P (imap _ row_targets)); cycle 1.
  { apply Forall_forall. intros l (i & v & -> & _)%elem_of_lookup_imap. apply Hrt. }
  rewrite (filter_none P (_ ≫= thermo_lines)); cycle 1.
  { apply Forall_bind, Forall_forall. intros t _. apply Forall_forall. apply Hth. }
  simpl. by rewrite !app_nil_r.
Qed.

Ltac not_board_fact :=
  intros t l; unfold thermo_lines; cbv zeta;
  rewrite !elem_of_app, !elem_of_cons, list_elem_of_fmap, elem_of_nil;
  intros [[->|[->|[->|[]]]]|[(c & -> & _)|[->|[]]]]; reflexivity.

(** C7. For a square grid of size n on which extraction succeeds and any
    targets, the lines of the rendered text that have the form row(r). are
    exactly row(0). ... row(n-1). in this order, those of the form col(c).
    are col(0). ... col(n-1)., and those of the form cell(r,c). are the n*n
    cells in row-major order. *)
Theorem render_facts_board_facts (grid : list str) (column_targets row_targets : list Z)
    (ths : list Thermometer) :
  square grid →
  extract_thermometers grid = Return ths →
  let n := length grid in
  let out_lines := splitlines (render_facts grid column_targets row_targets ths) in
  let rows := List.filter (is_prefix (lit "row(")) out_lines in
  let cols := List.filter (is_prefix (lit "col(")) out_lines in
  let cells := List.filter (is_prefix (lit "cell(")) out_lines in
  rows = row_line <$> range (Z.of_nat n) ∧
  cols = col_line <$> range (Z.of_nat n) ∧
  cells = (row ← range (Z.of_nat n); (cell_line row <$> range (Z.of_nat n))) ∧
  length rows = n ∧ length cols = n ∧ length cells = (n * n)%nat.
Proof.
  intros Hsq Hret n out_lines rows cols cells.
  assert (Forall (λ t, one_line (direction t) = true) ths) as Hdirs.
  { destruct (extract_returns_inv grid Hsq ths Hret) as (visited & (_ & Hths & _) & _).
    simpl in Hths. apply Forall_forall. intros t [i Hi]%list_elem_of_lookup.
    destruct (Forall2_lookup_r _ _ _ _ _ Hths Hi) as (b & _ & Hof).
    destruct Hof as (ch & ? & ? & _ & _ & _ & Hname & _). by eapply one_line_direction. }
  destruct (splitlines_rendered (render_lines grid column_targets row_targets ths))
    as [k Hlines].
  { by apply render_lines_fact. }
  { destruct (render_lines_first grid column_targets row_targets ths) as [rest ->].
    eexists. split; [left|done]. }
  fold (render_facts grid column_targets row_targets ths) in Hlines. fold out_lines in Hlines.
  assert (∀ P : str → bool, P [] = false →
            List.filter P out_lines
            = List.filter P (render_lines grid column_targets row_targets ths)) as Hfilter.
  { intros P HP. rewrite Hlines, List.filter_app, (filter_none P (replicate k [])).
    - by rewrite app_nil_r.
    - by apply Forall_replicate. }
  assert (rows = row_line <$> range (Z.of_nat n)) as Hrows.
  { unfold rows. rewrite Hfilter by done.
    rewrite (filter_render_lines _ true false false); try done;
      [by rewrite app_nil_r|not_board_fact]. }
  assert (cols = col_line <$> range (Z.of_nat n)) as Hcols.
  { unfold cols. rewrite Hfilter by done.
    rewrite (filter_render_lines _ false true false); try done;
      [by rewrite app_nil_r|not_board_fact]. }
  assert (cells = (row ← range (Z.of_nat n); (cell_line row <$> range (Z.of_nat n)))) as Hcells.
  { unfold cells. rewrite Hfilter by done.
    rewrite (filter_render_lines _ false false true); try done. not_board_fact. }
  split; [done|]. split; [done|]. split; [done|].
  rewrite Hrows, Hcols, Hcells.
  unfold range.
  rewrite (length_bind_const _ n); [|by intros; rewrite length_fmap, length_seqZ, Nat2Z.id].
  rewrite !length_fmap, !length_seqZ, Nat2Z.id. done.
Qed.

(** ** The theorems on sample boards *)

Lemma extract_partition_witness :
  square sample_grid ∧
  extract_thermometers sample_grid = Return sample_thermometers ∧
  NoDup (coords sample_thermometers) ∧
  (∀ x, x ∈ coords sample_thermometers ↔ inside 2 x) ∧
  (∀ i j ti tj x,
     sample_thermometers !! i = Some ti → sample_thermometers !! j = Some tj →
     x ∈ cell_coords ti → x ∈ cell_coords tj → i = j).
Proof.
  assert (square sample_grid) as Hsq by (split; [reflexivity|repeat constructor]).
  assert (extract_thermometers sample_grid = Return sample_thermometers) as Hret
    by (vm_compute; reflexivity).
  split; [exact Hsq|]. split; [exact Hret|].
  exact (extract_partition sample_grid sample_thermometers Hsq Hret).
Defined.

Lemma extract_cells_ordered_witness :
  ∃ d, step_of_name (lit "down") = Some d ∧
       [1; 2] = seqZ 1 2 ∧
       [(1, 0, 0); (2, 1, 0)] !! 0%nat = Some (1, 0, 0) ∧
       ∀ (i : nat) k r c k' r' c',
         [(1, 0, 0); (2, 1, 0)] !! i = Some (k, r, c) →
         [(1, 0, 0); (2, 1, 0)] !! S i = Some (k', r', c') →
         k' = k + 1 ∧ r' = r + d.1 ∧ c' = c + d.2.
Proof.
  apply (extract_cells_ordered sample_grid sample_thermometers
           {| bulb_row := 0; bulb_col := 0; direction := lit "down";
              cells := [(1, 0, 0); (2, 1, 0)] |}).
  - split; [reflexivity|repeat constructor].
  - vm_compute; reflexivity.
  - left.
Defined.

Lemma extract_uncovered_iff_witness :
  extract_thermometers orphan_grid = Raise (UncoveredCell 1 0) ∧
  ∃ x, inside 2 x ∧ ¬ covered orphan_grid x.
Proof.
  assert (extract_thermometers orphan_grid = Raise (UncoveredCell 1 0)) as Hraise
    by (vm_compute; reflexivity).
  split; [exact Hraise|].
  apply (extract_uncovered_iff orphan_grid).
  - split; [reflexivity|repeat constructor].
  - exists 1, 0. exact Hraise.
Defined.

Lemma extract_never_overlaps_witness :
  extract_thermometers facing_grid ≠ Raise (OverlappingThermometer 0 1).
Proof.
  apply (extract_never_overlaps facing_grid 0 1).
  split; [reflexivity|repeat constructor].
Defined.

Lemma extract_thermometers_terminates_witness :
  extract_thermometers_fuel 7 sample_grid = extract_thermometers sample_grid.
Proof.
  apply (extract_thermometers_terminates sample_grid). simpl. lia.
Defined.

(** C5 as stated fails: on [sample_grid], whose cells are all covered, the
    bulbs at (0,0) and (0,1) are adjacent, and the thermometer of the first
    has two cells. *)
Lemma adjacent_bulbs_not_all_unit :
  ¬ (square sample_grid →
     Forall (Forall (λ ch, ch ∈ ALLOWED_CHARS)) sample_grid →
     bulb_here sample_grid (0, 0) = true → bulb_here sample_grid (0, 1) = true →
     adjacent (0, 0) (0, 1) →
     (∀ x, inside (length sample_grid) x → covered sample_grid x) →
     ∃ ths, extract_thermometers sample_grid = Return ths ∧
            ∀ t, t ∈ ths →
                 (bulb_row t, bulb_col t) = (0, 0) ∨ (bulb_row t, bulb_col t) = (0, 1) →
                 length (cells t) = 1%nat).
Proof.
  intros Hclaim.
  assert (square sample_grid) as Hsq by (split; [reflexivity|repeat constructor]).
  assert (extract_thermometers sample_grid = Return sample_thermometers) as Hret
    by (vm_compute; reflexivity).
  destruct Hclaim as (ths & Hths & Hunit).
  - exact Hsq.
  - repeat constructor; apply bool_decide_unpack; vm_compute; exact I.
  - reflexivity.
  - reflexivity.
  - reflexivity.
  - exact (extract_returns_covered sample_grid sample_thermometers Hsq Hret).
  - rewrite Hret in Hths. injection Hths as <-.
    specialize (Hunit _ ltac:(left) ltac:(left; reflexivity)). discriminate Hunit.
Qed.

Lemma adjacent_bulbs_separate_witness :
  ∃ ths (i j : nat) tp tq,
    extract_thermometers facing_grid = Return ths ∧
    i ≠ j ∧ ths !! i = Some tp ∧ ths !! j = Some tq ∧
    (bulb_row tp, bulb_col tp) = (0, 0) ∧ (bulb_row tq, bulb_col tq) = (0, 1) ∧
    cells tp !! 0%nat = Some (1, 0, 0) ∧
    cells tq !! 0%nat = Some (1, 0, 1) ∧
    (length (cells tp) = 1%nat ↔ ¬ continues facing_grid (0, 1) (ray (0, 0) (0, 1) 1)) ∧
    (length (cells tq) = 1%nat ↔ ¬ continues facing_grid (0, -1) (ray (0, 1) (0, -1) 1)) ∧
    (ray (0, 0) (0, 1) 1 = (0, 1) → length (cells tp) = 1%nat) ∧
    (ray (0, 1) (0, -1) 1 = (0, 0) → length (cells tq) = 1%nat).
Proof.
  assert (square facing_grid) as Hsq by (split; [reflexivity|repeat constructor]).
  apply (adjacent_bulbs_separate facing_grid (0, 0) (0, 1) (0, 1) (0, -1)).
  - exact Hsq.
  - eapply (extract_returns_covered facing_grid); [exact Hsq|vm_compute; reflexivity].
  - unfold inside; simpl; lia.
  - unfold inside; simpl; lia.
  - reflexivity.
  - reflexivity.
  - reflexivity.
  - reflexivity.
  - reflexivity.
Defined.

Lemma render_facts_board_facts_witness :
  let out_lines := splitlines (render_facts sample_grid [1; 2] [-3; 4] sample_thermometers) in
  List.filter (is_prefix (lit "row(")) out_lines = [lit "row(0)."; lit "row(1)."] ∧
  List.filter (is_prefix (lit "col(")) out_lines = [lit "col(0)."; lit "col(1)."] ∧
  List.filter (is_prefix (lit "cell(")) out_lines
    = [lit "cell(0,0)."; lit "cell(0,1)."; lit "cell(1,0)."; lit "cell(1,1)."] ∧
  length (List.filter (is_prefix (lit "row(")) out_lines) = 2%nat ∧
  length (List.filter (is_prefix (lit "col(")) out_lines) = 2%nat ∧
  length (List.filter (is_prefix (lit "cell(")) out_lines) = 4%nat.
Proof.
  apply (render_facts_board_facts sample_grid [1; 2] [-3; 4] sample_thermometers).
  - split; [reflexivity|repeat constructor].
  - vm_compute; reflexivity.
Defined.


(** * Further properties *)

(** ** The parser *)

Lemma classify_lines_acc raw_lines : ∀ grid_lines number_lines,
  foldl classify_line (grid_lines, number_lines) raw_lines
  = (grid_lines ++ List.filter grid_line (content_lines raw_lines),
     number_lines ++ List.filter (λ l, negb (grid_line l)) (content_lines raw_lines)).
Proof.
  induction raw_lines as [|raw raw_lines IH]; intros grid_lines number_lines.
  - simpl. by rewrite !app_nil_r.
  - cbn [foldl]. unfold content_lines. cbn [fmap list_fmap List.filter].
    fold (content_lines raw_lines). unfold classify_line at 2.
    destruct (strip raw) as [|c line] eqn:Hline.
    + rewrite bool_decide_eq_true_2 by done. cbn [negb]. apply IH.
    + rewrite (bool_decide_eq_false_2 (c :: line = [])) by done. cbn [negb List.filter].
      fold (grid_line (c :: line)).
      destruct (grid_line (c :: line)); cbn [negb]; rewrite IH, <- !app_assoc; done.
Qed.

(** X1. The loop that sorts the lines keeps, in order, the stripped
    non-blank lines made of grid symbols as grid rows and all other stripped
    non-blank lines as target lines, wherever they stand in the file. *)
Theorem classify_lines (raw_lines : list str) :
  foldl classify_line ([], []) raw_lines
  = (List.filter grid_line (content_lines raw_lines),
     List.filter (λ l, negb (grid_line l)) (content_lines raw_lines)).
Proof. apply classify_lines_acc. Qed.

Lemma grid_line_alphabet l : grid_line l = true ↔ Forall (λ c, c ∈ ALLOWED_CHARS) l.
Proof.
  unfold grid_line. rewrite bool_decide_eq_true, Forall_forall. split.
  - intros Hsub c Hc. apply Hsub. by apply elem_of_list_to_set.
  - intros Hall c Hc%elem_of_list_to_set. by apply Hall.
Qed.

Lemma check_row_square size row :
  Forall (λ c, c ∈ ALLOWED_CHARS) row →
  check_row size row ()
  = if decide (Z.of_nat (length row) = size) then Return () else Raise NonSquareGrid.
Proof.
  intros Hrow. unfold check_row. destruct (decide _) as [Hlen|Hlen].
  - rewrite bool_decide_eq_false_2 by (intros Hn; by apply Hn). clear Hlen.
    induction Hrow as [|c row Hc Hrow IH]; [done|].
    cbn [for_each]. rewrite bool_decide_eq_false_2 by (intros Hn; by apply Hn).
    cbn [mbind outcome_bind]. apply IH.
  - by rewrite bool_decide_eq_true_2.
Qed.

Lemma check_rows_square size rows :
  Forall (Forall (λ c, c ∈ ALLOWED_CHARS)) rows →
  for_each rows (check_row size) ()
  = if decide (Forall (λ row, Z.of_nat (length row) = size) rows)
    then Return () else Raise NonSquareGrid.
Proof.
  induction 1 as [|row rows Hrow Hrows IH]; [done|].
  cbn [for_each]. rewrite check_row_square by done.
  destruct (decide (Z.of_nat (length row) = size)) as [Hlen|Hlen]; cbn [mbind outcome_bind].
  - rewrite IH. destruct (decide (Forall _ rows)) as [Hall|Hnot].
    + rewrite decide_True; [done|]. by constructor.
    + rewrite decide_False; [done|]. intros Hall. by apply Forall_cons_1 in Hall as [_ ?].
  - rewrite decide_False; [done|]. intros Hall. by apply Forall_cons_1 in Hall as [? _].
Qed.

(** What [parse_instance] does, in terms of the sorted lines. *)
Lemma parse_instance_unfold (py_int : str → option Z) (text : str) :
  let grid_lines := List.filter grid_line (content_lines (splitlines text)) in
  let number_lines :=
    List.filter (λ l, negb (grid_line l)) (content_lines (splitlines text)) in
  let size := Z.of_nat (length grid_lines) in
  parse_instance py_int text =
  match grid_lines with
  | [] => Raise EmptyGrid
  | _ =>
      if decide (Forall (λ row, Z.of_nat (length row) = size) grid_lines) then
        match number_lines with
        | [line0; line1] =>
            column_targets ← parse_targets py_int line0 size (lit "column");
            row_targets ← parse_targets py_int line1 size (lit "row");
            Return (grid_lines, column_targets, row_targets)
        | _ => Raise TargetLineCountMismatch
        end
      else Raise NonSquareGrid
  end.
Proof.
  intros grid_lines number_lines size. unfold parse_instance.
  rewrite classify_lines_acc. cbn [app].
  fold grid_lines number_lines.
  assert (Forall (Forall (λ c, c ∈ ALLOWED_CHARS)) grid_lines) as Halpha.
  { apply Forall_forall. intros l Hl. apply grid_line_alphabet.
    apply list_elem_of_In, List.filter_In in Hl. tauto. }
  unfold size. clearbody grid_lines number_lines. clear size.
  destruct grid_lines as [|row rows]; [done|].
  rewrite check_rows_square by done.
  destruct (decide _); cbn [mbind outcome_bind]; [|done].
  by destruct number_lines as [|l0 [|l1 [|l2 ls]]].
Qed.

Lemma parse_targets_outcome py_int line expected kind :
  (∃ values, parse_targets py_int line expected kind = Return values ∧
             Z.of_nat (length values) = expected) ∨
  parse_targets py_int line expected kind = Raise (InvalidTargetValue kind line) ∨
  (∃ found, parse_targets py_int line expected kind
            = Raise (TargetCountMismatch expected kind found line)).
Proof.
  unfold parse_targets. destruct (mapM py_int (split line)) as [values|]; [|by right; left].
  case_bool_decide as Hlen; [right; right; by eexists|]. left. exists values. split; [done|].
  destruct (decide (Z.of_nat (length values) = expected)); [done|]. by destruct Hlen.
Qed.

Lemma parse_instance_shape (py_int : str → option Z) (text : str)
    (grid : list str) (column_targets row_targets : list Z) :
  parse_instance py_int text = Return (grid, column_targets, row_targets) →
  grid ≠ [] ∧ square grid ∧
  length column_targets = length grid ∧ length row_targets = length grid.
Proof.
  rewrite parse_instance_unfold. cbv zeta.
  generalize (List.filter grid_line (content_lines (splitlines text))).
  intros g. destruct g as [|row rows] eqn:Hg; [done|]. rewrite <- Hg in *.
  destruct (decide _) as [Hsq|]; [|done].
  destruct (List.filter _ _) as [|l0 [|l1 [|l2 ls]]]; try done.
  destruct (parse_targets_outcome py_int l0 (Z.of_nat (length g)) (lit "column"))
    as [(ct & -> & Hct)|[-> | [? ->]]]; [|done..].
  destruct (parse_targets_outcome py_int l1 (Z.of_nat (length g)) (lit "row"))
    as [(rt & -> & Hrt)|[-> | [? ->]]]; [|done..].
  cbn [mbind outcome_bind]. intros [= <- <- <-].
  split; [by rewrite Hg|]. split; [|lia].
  split; [done|]. eapply Forall_impl; [exact Hsq|]. intros; simpl in *; lia.
Qed.

(** X2. When parse_instance returns, the grid is the list of the grid
    rows of the text in order; it is not empty, square and made of the
    eight symbols only, and there are as many column targets and as many
    row targets as rows. *)
Theorem parse_instance_returns (py_int : str → option Z) (text : str)
    (grid : list str) (column_targets row_targets : list Z) :
  parse_instance py_int text = Return (grid, column_targets, row_targets) →
  grid = List.filter grid_line (content_lines (splitlines text)) ∧
  grid ≠ [] ∧ square grid ∧
  Forall (Forall (λ c, c ∈ ALLOWED_CHARS)) grid ∧
  length column_targets = length grid ∧ length row_targets = length grid.
Proof.
  intros Hret.
  destruct (parse_instance_shape py_int text grid column_targets row_targets Hret)
    as (Hne & Hsq & Hct & Hrt).
  assert (grid = List.filter grid_line (content_lines (splitlines text))) as Hgrid.
  { revert Hret. rewrite parse_instance_unfold. cbv zeta.
    destruct (List.filter grid_line _) as [|row rows]; [done|].
    destruct (decide _); [|done].
    destruct (List.filter _ _) as [|l0 [|l1 [|l2 ls]]]; try done.
    destruct (parse_targets py_int l0 _ _); [|done..].
    destruct (parse_targets py_int l1 _ _); [|done..].
    cbn [mbind outcome_bind]. by intros [= <- _ _]. }
  split; [done|]. split; [done|]. split; [done|]. split; [|done].
  rewrite Hgrid. apply Forall_forall. intros l Hl. apply grid_line_alphabet.
  apply list_elem_of_In, List.filter_In in Hl. tauto.
Qed.

Lemma parse_instance_returns_witness :
  let text := lit "DR" ++ nl ++ lit " 1 2" ++ nl ++ nl ++ lit "vU " ++ nl ++ lit "-3 4" in
  parse_instance int_decimal text = Return ([lit "DR"; lit "vU"], [1; 2], [-3; 4]) ∧
  square [lit "DR"; lit "vU"].
Proof.
  intros text.
  assert (parse_instance int_decimal text = Return ([lit "DR"; lit "vU"], [1; 2], [-3; 4]))
    as Hret by (vm_compute; reflexivity).
  split; [exact Hret|].
  apply (parse_instance_returns int_decimal text _ _ _ Hret).
Defined.

(** X3. The failures of parse_instance come in a fixed order.  It reports
    an empty grid exactly when the text has no grid row; a non-square grid
    exactly when there are grid rows and one of them has a length other
    than their number; a wrong number of target lines exactly when the
    grid is a non-empty square and the other non-blank lines are not two;
    and with two target lines, a failure of the column line is reported
    whatever the row line holds. *)
Theorem parse_instance_failures (py_int : str → option Z) (text : str) :
  let grid_lines := List.filter grid_line (content_lines (splitlines text)) in
  let number_lines :=
    List.filter (λ l, negb (grid_line l)) (content_lines (splitlines text)) in
  let size := Z.of_nat (length grid_lines) in
  let is_square := Forall (λ row : str, Z.of_nat (length row) = size) grid_lines in
  (parse_instance py_int text = Raise EmptyGrid ↔ grid_lines = []) ∧
  (parse_instance py_int text = Raise NonSquareGrid ↔ grid_lines ≠ [] ∧ ¬ is_square) ∧
  (parse_instance py_int text = Raise TargetLineCountMismatch ↔
     grid_lines ≠ [] ∧ is_square ∧ length number_lines ≠ 2%nat) ∧
  (∀ line0 line1 e,
     grid_lines ≠ [] → is_square → number_lines = [line0; line1] →
     parse_targets py_int line0 size (lit "column") = Raise e →
     parse_instance py_int text = Raise e).
Proof.
  intros grid_lines number_lines size is_square.
  rewrite parse_instance_unfold. cbv zeta. fold grid_lines number_lines size is_square.
  assert (∀ l0 l1 e,
            (column_targets ← parse_targets py_int l0 size (lit "column");
             row_targets ← parse_targets py_int l1 size (lit "row");
             Return (grid_lines, column_targets, row_targets)) = Raise e →
            e ≠ EmptyGrid ∧ e ≠ NonSquareGrid ∧ e ≠ TargetLineCountMismatch) as Htargets.
  { intros l0 l1 e.
    destruct (parse_targets_outcome py_int l0 size (lit "column"))
      as [(ct & -> & _)|[-> | [? ->]]]; cbn [mbind outcome_bind];
      [|by intros [= <-]..].
    destruct (parse_targets_outcome py_int l1 size (lit "row"))
      as [(rt & -> & _)|[-> | [? ->]]]; cbn [mbind outcome_bind];
      [done|by intros [= <-]..]. }
  clearbody grid_lines number_lines. subst size is_square.
  destruct grid_lines as [|row rows] eqn:Hg.
  { split; [done|]. split; [split; [done|by intros [? _]]|].
    split; [split; [done|by intros [? _]]|]. done. }
  rewrite <- Hg in *. assert (grid_lines ≠ []) as Hne by by rewrite Hg.
  destruct (decide (Forall _ grid_lines)) as [Hsq|Hnsq].
  - destruct number_lines as [|l0 [|l1 [|l2 ls]]] eqn:Hm;
      (split; [split; [|done]|split; [split; [|tauto]|split; [split|]]]);
      try done; try (simpl; intros; split; [done|split; [done|lia]]);
      try (intros (_ & _ & Hlen); simpl in Hlen; lia);
      try (intros Heq; by destruct (Htargets l0 l1 _ Heq) as (? & ? & ?)).
    intros line0 line1 e _ _ [= <- <-] ->. done.
  - split; [done|]. split; [done|]. split; [split; [done|tauto]|]. tauto.
Qed.

Lemma parse_instance_failures_witness :
  let text := lit "DR" ++ nl ++ lit "vU" ++ nl ++ lit "1 x" ++ nl ++ lit "y" in
  parse_instance int_decimal text = Raise (InvalidTargetValue (lit "column") (lit "1 x")).
Proof.
  intros text.
  destruct (parse_instance_failures int_decimal text) as (_ & _ & _ & Hcolumn).
  apply (Hcolumn (lit "1 x") (lit "y")); [done| |reflexivity|reflexivity].
  repeat constructor.
Defined.

Lemma numeral_uint d : numeral (lit (NilEmpty.string_of_uint d)) = true.
Proof. induction d; simpl; auto. Qed.

Lemma numeral_str_of_Z i : numeral (str_of_Z i) = true.
Proof.
  unfold str_of_Z. destruct (Z.to_int i) as [d|d]; simpl.
  - destruct d; try apply (numeral_uint (_ _)); done.
  - destruct d; try apply (numeral_uint (_ _)); done.
Qed.

Lemma str_of_Z_nonempty i : str_of_Z i ≠ [].
Proof. unfold str_of_Z. by destruct (Z.to_int i) as [[]|[]]. Qed.

Lemma numeral_chars (P : ascii → Prop) s :
  Forall P (lit "-0123456789") → numeral s = true → Forall P s.
Proof.
  intros HP Hs. apply Forall_forall. intros c Hc.
  unfold numeral in Hs. rewrite forallb_forall in Hs.
  apply list_elem_of_In, Hs, bool_decide_eq_true in Hc.
  rewrite Forall_forall in HP. by apply HP.
Qed.

Lemma str_of_Z_no_space i : Forall (λ c, is_space c = false) (str_of_Z i).
Proof. apply numeral_chars; [by repeat constructor|apply numeral_str_of_Z]. Qed.

Lemma split_go_token tok : ∀ cur rest,
  Forall (λ c, is_space c = false) tok →
  split_go cur (tok ++ rest) = split_go (cur ++ tok) rest.
Proof.
  induction tok as [|c tok IH]; intros cur rest Htok; [by rewrite app_nil_r|].
  apply Forall_cons_1 in Htok as [Hc Htok]. cbn [app split_go]. rewrite Hc, IH by done.
  by rewrite <- app_assoc.
Qed.

(** Splitting undoes joining with single spaces. *)
Lemma split_join tokens :
  Forall (λ tok, tok ≠ [] ∧ Forall (λ c, is_space c = false) tok) tokens →
  split (join (lit " ") tokens) = tokens.
Proof.
  unfold split. induction 1 as [|tok tokens [Hne Htok] _ IH]; [done|].
  destruct tokens as [|tok' tokens].
  - simpl. rewrite <- (app_nil_r tok) at 1. rewrite split_go_token by done. simpl.
    by destruct tok.
  - change (join (lit " ") (tok :: tok' :: tokens))
      with (tok ++ lit " " ++ join (lit " ") (tok' :: tokens)).
    rewrite split_go_token by done. rewrite app_nil_l.
    change (lit " " ++ join (lit " ") (tok' :: tokens))
      with (" "%char :: join (lit " ") (tok' :: tokens)).
    destruct tok as [|c tok]; [done|]. cbn [split_go].
    change (is_space " ") with true. cbv iota. by rewrite IH.
Qed.

(** X4. A target line written as decimal integers separated by single
    spaces is read back as these integers, whatever their values and sign,
    provided int reads back what str writes. *)
Theorem parse_targets_round_trip (py_int : str → option Z) (values : list Z) (kind : str) :
  Forall (λ v, py_int (str_of_Z v) = Some v) values →
  parse_targets py_int (join (lit " ") (str_of_Z <$> values)) (Z.of_nat (length values)) kind
  = Return values.
Proof.
  intros Hint. unfold parse_targets. rewrite split_join; cycle 1.
  { apply Forall_fmap, Forall_forall. intros v _. split.
    - apply str_of_Z_nonempty.
    - apply str_of_Z_no_space. }
  rewrite (mapM_Some_2 py_int (str_of_Z <$> values) values).
  - by rewrite bool_decide_eq_false_2 by (intros Hn; by apply Hn).
  - apply Forall2_fmap_l, Forall_Forall2_diag. done.
Qed.

Lemma parse_targets_round_trip_witness :
  parse_targets int_decimal (lit "-3 0 12") 3 (lit "row") = Return [-3; 0; 12].
Proof.
  apply (parse_targets_round_trip int_decimal [-3; 0; 12] (lit "row")).
  repeat constructor.
Defined.

(** ** The extractor *)

Lemma thermometer_of_unique grid b t t' :
  thermometer_of grid b t → thermometer_of grid b t' → t = t'.
Proof.
  intros (ch & d & m & Hch & _ & Hd & Hname & Hb & Hm & Hcells & Hchain & Hmax)
         (ch' & d' & m' & Hch' & _ & Hd' & Hname' & Hb' & Hm' & Hcells' & Hchain' & Hmax').
  assert (ch' = ch) as -> by congruence. assert (d' = d) as -> by congruence.
  assert (m' = m) as ->.
  { destruct (lt_eq_lt_dec m m') as [[Hlt|Heq]|Hlt]; [|done|].
    - destruct Hmax. apply Hchain'. lia.
    - destruct Hmax'. apply Hchain. lia. }
  destruct t, t'. simpl in *. congruence.
Qed.

Lemma Forall2_functional {A B : Type} (R : A → B → Prop) l k k' :
  (∀ a b b', R a b → R a b' → b = b') →
  Forall2 R l k → Forall2 R l k' → k = k'.
Proof.
  intros Hfun Hk. revert k'. induction Hk as [|a b l k Hab _ IH]; intros k' Hk'.
  - by apply Forall2_nil_inv_l in Hk'.
  - apply Forall2_cons_inv_l in Hk' as (b' & k'' & Hab' & Hk'' & ->).
    f_equal; [by eapply Hfun|by apply IH].
Qed.

Lemma extract_bulb_list (grid : list str) (ths : list Thermometer) :
  square grid → extract_thermometers grid = Return ths →
  (λ t, (bulb_row t, bulb_col t)) <$> ths = bulbs grid.
Proof.
  intros Hsq Hret.
  destruct (extract_returns_inv grid Hsq ths Hret) as (? & (_ & Hof & _) & _).
  simpl in Hof. fold (bulbs grid) in Hof. clear Hret.
  induction Hof as [|b t l k Hbt _ IH]; [done|].
  rewrite fmap_cons, IH. f_equal. by destruct Hbt as (? & ? & ? & _ & _ & _ & _ & ? & _).
Qed.

(** X5. On a square grid extract_thermometers returns [ths] exactly when
    every cell is covered and [ths] lists, for the bulbs taken in row-major
    order, the thermometer of each bulb; so there is one thermometer per
    bulb, identified by the bulb's coordinates. *)
Theorem extract_returns_iff (grid : list str) (ths : list Thermometer) :
  square grid →
  (extract_thermometers grid = Return ths ↔
     (∀ x, inside (length grid) x → covered grid x) ∧
     Forall2 (thermometer_of grid) (bulbs grid) ths) ∧
  (extract_thermometers grid = Return ths →
     (λ t, (bulb_row t, bulb_col t)) <$> ths = bulbs grid).
Proof.
  intros Hsq.
  assert (extract_thermometers grid = Return ths →
          Forall2 (thermometer_of grid) (bulbs grid) ths) as Hof.
  { intros Hret. by destruct (extract_returns_inv grid Hsq ths Hret) as (? & (_ & ? & _) & _). }
  split; [split|].
  - intros Hret. split; [by eapply extract_returns_covered|by apply Hof].
  - intros [Hcov Hths]. destruct (covered_extract_returns grid Hsq Hcov) as [ths' Hret].
    rewrite Hret. f_equal. symmetry.
    eapply Forall2_functional; [apply thermometer_of_unique|exact Hths|].
    by destruct (extract_returns_inv grid Hsq ths' Hret) as (? & (_ & ? & _) & _).
  - by apply extract_bulb_list.
Qed.

Lemma extract_returns_iff_witness :
  (λ t, (bulb_row t, bulb_col t)) <$> sample_thermometers = [(0, 0); (0, 1); (1, 1)].
Proof.
  apply (extract_returns_iff sample_grid sample_thermometers).
  - split; [reflexivity|repeat constructor].
  - vm_compute; reflexivity.
Defined.

(** X6. Every thermometer returned on a square grid is a maximal chain:
    its bulb cell holds a bulb symbol whose name is the thermometer's
    direction; each further cell holds a chain symbol of that direction;
    and the walk cannot go on after the last cell (the next cell is off the
    board, a bulb, or a symbol of another direction). *)
Theorem extract_chains_maximal (grid : list str) (ths : list Thermometer) (t : Thermometer) :
  square grid →
  extract_thermometers grid = Return ths →
  t ∈ ths →
  ∃ ch d (last_index last_row last_col : Z),
    at2 grid (bulb_row t, bulb_col t) = Some ch ∧ ch ∈ BULBS ∧
    DIRECTION_NAMES !! ch = Some (direction t) ∧
    DIRECTION_DELTAS !! ch = Some d ∧
    (∀ (i : nat) k r c,
       (1 ≤ i)%nat → cells t !! i = Some (k, r, c) → continues grid d (r, c)) ∧
    last (cells t) = Some (last_index, last_row, last_col) ∧
    ¬ continues grid d (last_row + d.1, last_col + d.2).
Proof.
  intros Hsq Hret Ht.
  destruct (extract_returns_inv grid Hsq ths Hret) as (visited & (_ & Hths & _) & _).
  simpl in Hths. apply list_elem_of_lookup in Ht as [i Hi].
  destruct (Forall2_lookup_r _ _ _ _ _ Hths Hi) as (b & _ & Hof).
  destruct Hof as (ch & d & m & Hch & Hbulb & Hd & Hname & Hb & Hm & Hcells & Hchain & Hmax).
  subst b. simpl in *.
  exists ch, d, (1 + Z.of_nat (m - 1)),
    (bulb_row t + Z.of_nat (m - 1) * d.1), (bulb_col t + Z.of_nat (m - 1) * d.2).
  do 4 (split; [done|]). split; [|split].
  - intros j k r c Hj. rewrite Hcells, list_lookup_fmap.
    destruct (seq 0 m !! j) as [a|] eqn:Ha; [|done]. apply lookup_seq in Ha as [-> Hlt].
    simpl. intros [= <- <- <-]. apply (Hchain j). lia.
  - rewrite Hcells. destruct m as [|m]; [lia|].
    rewrite seq_S, fmap_app, list_fmap_singleton, last_snoc. simpl. by rewrite Nat.sub_0_r.
  - intros Hcont. apply Hmax. unfold ray. simpl.
    replace (Z.of_nat m) with (Z.of_nat (m - 1) + 1) by lia.
    by rewrite !Z.mul_add_distr_r, !Z.mul_1_l, !Z.add_assoc.
Qed.

Lemma extract_chains_maximal_witness :
  ∃ ch d (last_index last_row last_col : Z),
    at2 sample_grid (0, 0) = Some ch ∧ ch ∈ BULBS ∧
    DIRECTION_NAMES !! ch = Some (lit "down") ∧
    DIRECTION_DELTAS !! ch = Some d ∧
    (∀ (i : nat) k r c,
       (1 ≤ i)%nat → [(1, 0, 0); (2, 1, 0)] !! i = Some (k, r, c) →
       continues sample_grid d (r, c)) ∧
    Some (2, 1, 0) = Some (last_index, last_row, last_col) ∧
    ¬ continues sample_grid d (last_row + d.1, last_col + d.2).
Proof.
  apply (extract_chains_maximal sample_grid sample_thermometers
           {| bulb_row := 0; bulb_col := 0; direction := lit "down";
              cells := [(1, 0, 0); (2, 1, 0)] |}).
  - split; [reflexivity|repeat constructor].
  - vm_compute; reflexivity.
  - left.
Defined.

Lemma length_positions n : length (positions n) = (n * n)%nat.
Proof.
  unfold positions, range. rewrite (length_bind_const _ n).
  - by rewrite length_seqZ, Nat2Z.id.
  - intros r. by rewrite length_fmap, length_seqZ, Nat2Z.id.
Qed.

Lemma length_coords ths : length (coords ths) = sum_list ((λ t, length (cells t)) <$> ths).
Proof.
  unfold coords. induction ths as [|t ths IH]; [done|].
  rewrite bind_cons, length_app, IH. unfold cell_coords. by rewrite length_fmap.
Qed.

Lemma extract_total_cells (grid : list str) (ths : list Thermometer) :
  square grid → extract_thermometers grid = Return ths →
  length (coords ths) = (length grid * length grid)%nat.
Proof.
  intros Hsq Hret.
  destruct (extract_returns_inv grid Hsq ths Hret) as (visited & Hinv & Hall).
  destruct Hinv as (_ & _ & _ & Hnodup & Hcoords). simpl in *.
  rewrite <- length_positions. apply Permutation_length.
  apply NoDup_Permutation; [done|apply NoDup_positions|].
  intros x. rewrite Hcoords, elem_of_positions. split; [tauto|]. intros Hx. split; [done|].
  by apply Hall.
Qed.

(** X7. On a square grid of size n, every returned thermometer has
    between 1 and n cells, and the lengths of the returned thermometers add
    up to n*n. *)
Theorem extract_lengths (grid : list str) (ths : list Thermometer) :
  square grid →
  extract_thermometers grid = Return ths →
  Forall (λ t, (1 ≤ length (cells t) ≤ length grid)%nat) ths ∧
  sum_list ((λ t, length (cells t)) <$> ths) = (length grid * length grid)%nat.
Proof.
  intros Hsq Hret.
  destruct (extract_returns_inv grid Hsq ths Hret) as (visited & Hinv & Hall).
  destruct Hinv as (_ & Hths & _ & Hnodup & Hcoords). simpl in *. split.
  - apply Forall_forall. intros t [i Hi]%list_elem_of_lookup.
    destruct (Forall2_lookup_r _ _ _ _ _ Hths Hi) as (b & Hb & Hof).
    destruct Hof as (ch & d & m & _ & _ & Hd & _ & _ & Hm & Hcells & Hchain & _).
    rewrite Hcells, length_fmap, length_seq. split; [done|].
    apply deltas_unit in Hd.
    assert (inside (length grid) b) as [Hb1 Hb2].
    { apply elem_of_positions. apply list_elem_of_lookup_2 in Hb.
      by apply list_elem_of_filter in Hb as [_ ?]. }
    destruct (decide (m = 1%nat)) as [->|Hne]; [lia|].
    destruct (Hchain (m - 1)%nat) as [[Hr Hc] _]; [lia|]. unfold ray in Hr, Hc. simpl in Hr, Hc.
    destruct Hd as [-> | [-> | [-> | ->]]]; simpl in *; lia.
  - rewrite <- length_coords. by apply extract_total_cells.
Qed.

Lemma extract_lengths_witness :
  Forall (λ t, (1 ≤ length (cells t) ≤ 2)%nat) sample_thermometers ∧
  sum_list ((λ t, length (cells t)) <$> sample_thermometers) = 4%nat.
Proof.
  apply (extract_lengths sample_grid sample_thermometers).
  - split; [reflexivity|repeat constructor].
  - vm_compute; reflexivity.
Defined.

Lemma uncovered_extract_raises (grid : list str) x :
  square grid → inside (length grid) x → ¬ covered grid x →
  ∃ r c, extract_thermometers grid = Raise (UncoveredCell r c).
Proof.
  intros Hsq Hx Hnc.
  destruct (extract_spec grid Hsq) as (visited & ths & Hinv & [[Hall _]|(? & y & ? & _ & _ & _ & ->)]);
    [|by eauto].
  destruct Hnc. apply (visited_iff_covered grid (visited, ths) x Hinv Hx). simpl.
  rewrite Forall_forall in Hall. by apply Hall, elem_of_positions.
Qed.

(** A covered cell that holds no bulb is entered from the cell behind it. *)
Lemma covered_chain_behind (grid : list str) x ch :
  covered grid x → at2 grid x = Some ch → ch ∉ BULBS →
  ∃ d, DIRECTION_DELTAS !! ch = Some d ∧
       inside (length grid) (x.1 - d.1, x.2 - d.2) ∧
       delta_at grid (x.1 - d.1, x.2 - d.2) = Some d.
Proof.
  intros (b & d & (Hb & cb & Hcb & Hbulb & Hdb) & k & -> & Hk) Hch Hnb.
  destruct k as [|k].
  { rewrite ray_0, Hcb in Hch. by injection Hch as <-. }
  destruct (Hk (S k)) as (_ & ch' & Hch' & _ & Hd); [lia|].
  rewrite Hch in Hch'. injection Hch' as <-. exists d. split; [done|].
  assert (((ray b d (S k)).1 - d.1, (ray b d (S k)).2 - d.2) = ray b d k) as ->.
  { unfold ray. simpl. f_equal; lia. }
  destruct k as [|k].
  - rewrite ray_0. split; [done|]. unfold delta_at. by rewrite Hcb.
  - destruct (Hk (S k)) as (? & c1 & Hc1 & _ & Hd1); [lia|]. split; [done|].
    unfold delta_at. by rewrite Hc1.
Qed.

(** X8. Orphan chains are rejected.  On a square grid, if some cell holds
    a symbol that is not a bulb, and the cell behind it (one step against
    the symbol's own direction) is off the board or does not hold a symbol
    of the same direction, then extract_thermometers raises UncoveredCell.
    The same holds for a symbol without direction. *)
Theorem extract_orphan_raises (grid : list str) (x : Z * Z) (ch : ascii) :
  square grid →
  inside (length grid) x →
  at2 grid x = Some ch → ch ∉ BULBS →
  (∀ d, DIRECTION_DELTAS !! ch = Some d →
        ¬ (inside (length grid) (x.1 - d.1, x.2 - d.2) ∧
           delta_at grid (x.1 - d.1, x.2 - d.2) = Some d)) →
  ∃ r c, extract_thermometers grid = Raise (UncoveredCell r c).
Proof.
  intros Hsq Hx Hch Hnb Horphan. apply (uncovered_extract_raises grid x Hsq Hx).
  intros Hcov. destruct (covered_chain_behind grid x ch Hcov Hch Hnb) as (d & Hd & ? & ?).
  by apply (Horphan d Hd).
Qed.

Lemma extract_orphan_raises_witness :
  ∃ r c, extract_thermometers orphan_grid = Raise (UncoveredCell r c).
Proof.
  apply (extract_orphan_raises orphan_grid (1, 1) "<"%char).
  - split; [reflexivity|repeat constructor].
  - unfold inside; simpl; lia.
  - reflexivity.
  - assert (bool_decide ("<"%char ∈ BULBS) = false) as Hnb by (vm_compute; reflexivity).
    by apply bool_decide_eq_false in Hnb.
  - intros d Hd [[_ Hc] _]. vm_compute in Hd. injection Hd as <-. simpl in Hc. lia.
Defined.

Lemma head_positions n : (1 ≤ n)%nat → head (positions n) = Some (0, 0).
Proof.
  intros Hn. unfold positions, range.
  by rewrite (seqZ_cons 0 (Z.of_nat n)), bind_cons by lia.
Qed.

(** X9. A square grid that is not empty and has no bulb is rejected at its
    first cell: extract_thermometers raises UncoveredCell at (0,0). *)
Theorem extract_no_bulb_raises (grid : list str) :
  square grid → grid ≠ [] →
  (∀ x, inside (length grid) x → bulb_here grid x = false) →
  extract_thermometers grid = Raise (UncoveredCell 0 0).
Proof.
  intros Hsq Hne Hnone.
  assert (∀ x, inside (length grid) x → ¬ covered grid x) as Hnc.
  { intros x Hx (b & d & (Hb & ch & Hch & Hbulb & _) & _).
    specialize (Hnone b Hb). unfold bulb_here in Hnone. rewrite Hch in Hnone.
    by apply bool_decide_eq_false in Hnone. }
  assert (head (positions (length grid)) = Some (0, 0)) as Hhead.
  { apply head_positions. destruct grid; [done|simpl; lia]. }
  destruct (extract_spec grid Hsq) as (visited & ths & Hinv & Hres).
  pose proof (λ x, visited_iff_covered grid (visited, ths) x Hinv) as Hcov. simpl in Hcov.
  destruct Hres as [[Hall _]|(l1 & x & l2 & Heq & Hl1 & _ & ->)].
  - rewrite Forall_forall in Hall.
    destruct (positions (length grid)) as [|p ps] eqn:Hp; [done|].
    assert (inside (length grid) p) as Hin by (apply elem_of_positions; rewrite Hp; left).
    destruct (Hnc p Hin). apply Hcov; [done|]. apply Hall. left.
  - destruct l1 as [|p l1].
    + rewrite Heq in Hhead. by injection Hhead as ->.
    + assert (inside (length grid) p) as Hin by (apply elem_of_positions; rewrite Heq; left).
      destruct (Hnc p Hin). apply Hcov; [done|]. by apply Forall_cons_1 in Hl1 as [? _].
Qed.

Lemma extract_no_bulb_raises_witness :
  extract_thermometers [lit ">v"; lit "^<"] = Raise (UncoveredCell 0 0).
Proof.
  apply (extract_no_bulb_raises [lit ">v"; lit "^<"]).
  - split; [reflexivity|repeat constructor].
  - done.
  - intros [r c] [Hr Hc]. simpl in Hr, Hc.
    assert (r = 0 ∨ r = 1) as [-> | ->] by lia;
      (assert (c = 0 ∨ c = 1) as [-> | ->] by lia); reflexivity.
Defined.

Lemma for_each_returns {A S : Type} (xs : list A) (body : A → S → outcome S) s s' x :
  for_each xs body s = Return s' → x ∈ xs → ∃ s1 s2, body x s1 = Return s2.
Proof.
  revert s. induction xs as [|y xs IH]; intros s Hret Hx; [by apply elem_of_nil in Hx|].
  cbn [for_each] in Hret. destruct (body y s) as [s1| |] eqn:Hy; [|done..].
  apply elem_of_cons in Hx as [->|Hx]; [by eauto|]. by apply (IH s1).
Qed.

(** X10. extract_thermometers needs rows of at least len(grid) symbols: on
    a grid with a shorter row it never returns a list of thermometers. *)
Theorem extract_short_row (grid : list str) (i : nat) (row : str) (ths : list Thermometer) :
  grid !! i = Some row → (length row < length grid)%nat →
  extract_thermometers grid ≠ Return ths.
Proof.
  intros Hrow Hshort Hret.
  unfold extract_thermometers, extract_thermometers_fuel in Hret.
  destruct (scan_bulbs (length grid) grid) as [[visited ths']| |] eqn:Hscan; [|done..].
  clear Hret. unfold scan_bulbs in Hscan. rewrite for_each_nested in Hscan.
  fold (positions (length grid)) in Hscan.
  pose proof (lookup_lt_Some _ _ _ Hrow) as Hi.
  destruct (for_each_returns _ _ _ _ (Z.of_nat i, Z.of_nat (length row)) Hscan)
    as ([v t] & s2 & Hcell).
  { apply elem_of_positions. unfold inside. simpl. lia. }
  revert Hcell. unfold scan_cell. cbn [fst snd].
  rewrite (py_get_lookup grid _ row) by (lia || by rewrite Nat2Z.id).
  cbn [mbind outcome_bind]. unfold py_get, py_norm.
  rewrite (bool_decide_eq_false_2 (0 ≤ Z.of_nat (length row) < Z.of_nat (length row))) by lia.
  rewrite (bool_decide_eq_false_2 (- Z.of_nat (length row) ≤ Z.of_nat (length row) < 0)) by lia.
  done.
Qed.

Lemma extract_short_row_witness :
  extract_thermometers [lit "R>"; lit "<"] ≠ Return [].
Proof.
  apply (extract_short_row [lit "R>"; lit "<"] 1 (lit "<") []).
  - reflexivity.
  - simpl. lia.
Defined.

(** ** The renderer *)

Lemma thermo_lines_end t : ∃ facts, thermo_lines t = facts ++ [[]].
Proof. unfold thermo_lines. cbv zeta. rewrite app_assoc. by eexists. Qed.

Lemma last_blank_thermo_lines (pre : list str) ths :
  last ((pre ++ [[]]) ++ (ths ≫= thermo_lines)) = Some [].
Proof.
  destruct ths as [|t ths _] using rev_ind.
  - rewrite app_nil_r. apply last_snoc.
  - rewrite bind_app, bind_singleton. destruct (thermo_lines_end t) as [facts ->].
    rewrite !app_assoc. apply last_snoc.
Qed.

Lemma render_lines_last_blank grid column_targets row_targets thermometers :
  last (render_lines grid column_targets row_targets thermometers) = Some [].
Proof. unfold render_lines. rewrite !app_assoc. apply last_blank_thermo_lines. Qed.

(** X11. When no thermometer direction contains a line boundary, the
    lines of the rendered text are the lines built by render_facts, in
    order, with the blank lines at the end removed (there is at least one),
    and nothing else. *)
Theorem render_facts_lines (grid : list str) (column_targets row_targets : list Z)
    (thermometers : list Thermometer) :
  Forall (λ t, one_line (direction t) = true) thermometers →
  ∃ k : nat,
    (1 ≤ k)%nat ∧
    render_lines grid column_targets row_targets thermometers
    = splitlines (render_facts grid column_targets row_targets thermometers)
      ++ replicate k [] ∧
    ∀ l, last (splitlines (render_facts grid column_targets row_targets thermometers))
         = Some l → l ≠ [].
Proof.
  intros Hdirs.
  destruct (splitlines_rendered (render_lines grid column_targets row_targets thermometers))
    as [k Hlines].
  { by apply render_lines_fact. }
  { destruct (render_lines_first grid column_targets row_targets thermometers) as [rest ->].
    eexists. split; [left|done]. }
  fold (render_facts grid column_targets row_targets thermometers) in Hlines.
  assert (∀ l, last (splitlines (render_facts grid column_targets row_targets thermometers))
               = Some l → l ≠ []) as Hlast.
  { unfold render_facts.
    set (text := join nl (render_lines grid column_targets row_targets thermometers)).
    assert (rstrip text ≠ []) as Hne.
    { destruct (render_lines_first grid column_targets row_targets thermometers) as [rest Hfirst].
      unfold text. rewrite Hfirst.
      destruct (join_cons_head nl (lit "#const n=" ++ str_of_Z (Z.of_nat (length grid)) ++ lit ".")
                  rest) as [rest' ->].
      by apply rstrip_keeps. }
    destruct (last (rstrip text)) as [c|] eqn:Hl; [|by apply last_None in Hl].
    pose proof (rstrip_last text c Hl) as Hc.
    apply last_Some in Hl as [body ->]. intros l. unfold splitlines. rewrite <- app_assoc.
    apply (splitlines_last_nonblank (length body) body [] l c); [done|].
    destruct (is_linebreak c) eqn:Hlb; [|done]. apply linebreak_is_space in Hlb. congruence. }
  exists k. split; [|done].
  destruct k as [|k]; [|lia].
  pose proof (render_lines_last_blank grid column_targets row_targets thermometers) as Hblank.
  rewrite Hlines, app_nil_r in Hblank. by destruct (Hlast [] Hblank).
Qed.

Lemma render_facts_lines_witness :
  ∃ k : nat,
    (1 ≤ k)%nat ∧
    render_lines sample_grid [1; 2] [-3; 4] sample_thermometers
    = splitlines (render_facts sample_grid [1; 2] [-3; 4] sample_thermometers)
      ++ replicate k [] ∧
    ∀ l, last (splitlines (render_facts sample_grid [1; 2] [-3; 4] sample_thermometers))
         = Some l → l ≠ [].
Proof.
  apply (render_facts_lines sample_grid [1; 2] [-3; 4] sample_thermometers).
  repeat constructor.
Defined.

Lemma thermo_lines_eq t :
  thermo_lines t
  = [thermometer_line t; thermo_dir_line t; thermo_length_line t]
    ++ (thermo_cell_line t <$> cells t) ++ [[]].
Proof. reflexivity. Qed.

Lemma render_lines_eq grid column_targets row_targets thermometers :
  let size := Z.of_nat (length grid) in
  render_lines grid column_targets row_targets thermometers
  = [lit "#const n=" ++ str_of_Z size ++ lit "."; []]
    ++ (row_line <$> range size) ++ [[]]
    ++ (col_line <$> range size) ++ [[]]
    ++ (row ← range size; (cell_line row <$> range size)) ++ [[]]
    ++ imap col_target_line column_targets ++ [[]]
    ++ imap row_target_line row_targets ++ [[]]
    ++ (thermometers ≫= thermo_lines).
Proof. reflexivity. Qed.

Lemma filter_bind {A B : Type} (P : B → bool) (f : A → list B) l :
  List.filter P (l ≫= f) = l ≫= (λ x, List.filter P (f x)).
Proof.
  induction l as [|x l IH]; [done|]. by rewrite !bind_cons, List.filter_app, IH.
Qed.

Ltac forall_prefix :=
  first
    [ apply Forall_nil_2
    | apply Forall_cons_2; [reflexivity|forall_prefix]
    | apply Forall_fmap, Forall_forall; intros ? _; reflexivity
    | apply Forall_forall; intros ? (? & ? & -> & _)%elem_of_lookup_imap; reflexivity
    | apply Forall_bind, Forall_forall; intros ? _;
      apply Forall_fmap, Forall_forall; intros ? _; reflexivity ].

(** Selecting lines of [render_lines] by a test that rejects the header,
    the blank lines and the board facts. *)
Lemma filter_render_tail (P : str → bool) grid column_targets row_targets thermometers :
  P [] = false →
  (∀ z, P (lit "#const n=" ++ str_of_Z z ++ lit ".") = false) →
  (∀ r, P (row_line r) = false) → (∀ c, P (col_line c) = false) →
  (∀ r c, P (cell_line r c) = false) →
  List.filter P (render_lines grid column_targets row_targets thermometers)
  = List.filter P (imap col_target_line column_targets)
    ++ List.filter P (imap row_target_line row_targets)
    ++ (thermometers ≫= λ t, List.filter P (thermo_lines t)).
Proof.
  intros Hblank Hconst Hrow Hcol Hcell. rewrite render_lines_eq. cbv zeta.
  rewrite !List.filter_app.
  rewrite (filter_none P [_; []]) by (by repeat constructor).
  rewrite !(filter_none P [[]]) by (by repeat constructor).
  rewrite (filter_none P (row_line <$> _))
    by (apply Forall_fmap, Forall_forall; intros ? _; apply Hrow).
  rewrite (filter_none P (col_line <$> _))
    by (apply Forall_fmap, Forall_forall; intros ? _; apply Hcol).
  rewrite (filter_none P (_ ≫= (λ row, cell_line row <$> _))); [by rewrite filter_bind|].
  apply Forall_bind, Forall_forall. intros r _.
  apply Forall_fmap, Forall_forall. intros ? _. apply Hcell.
Qed.

Lemma filter_splitlines_rendered (P : str → bool) grid column_targets row_targets thermometers :
  Forall (λ t, one_line (direction t) = true) thermometers → P [] = false →
  List.filter P (splitlines (render_facts grid column_targets row_targets thermometers))
  = List.filter P (render_lines grid column_targets row_targets thermometers).
Proof.
  intros Hdirs HP.
  destruct (splitlines_rendered (render_lines grid column_targets row_targets thermometers))
    as [k Hlines].
  { by apply render_lines_fact. }
  { destruct (render_lines_first grid column_targets row_targets thermometers) as [rest ->].
    eexists. split; [left|done]. }
  fold (render_facts grid column_targets row_targets thermometers) in Hlines.
  rewrite Hlines, List.filter_app, (filter_none P (replicate k [])).
  - by rewrite app_nil_r.
  - by apply Forall_replicate.
Qed.

Lemma select_target_lines (P : str → bool) grid column_targets row_targets thermometers :
  Forall (λ t, one_line (direction t) = true) thermometers →
  P [] = false →
  (∀ z, P (lit "#const n=" ++ str_of_Z z ++ lit ".") = false) →
  (∀ r, P (row_line r) = false) → (∀ c, P (col_line c) = false) →
  (∀ r c, P (cell_line r c) = false) →
  (∀ t, Forall (λ l, P l = false) (thermo_lines t)) →
  List.filter P (splitlines (render_facts grid column_targets row_targets thermometers))
  = List.filter P (imap col_target_line column_targets)
    ++ List.filter P (imap row_target_line row_targets).
Proof.
  intros Hdirs HP Hconst Hr Hc Hcell Hth.
  rewrite filter_splitlines_rendered, filter_render_tail by done.
  assert (thermometers ≫= (λ t, List.filter P (thermo_lines t)) = []) as ->.
  { clear Hdirs. induction thermometers as [|t ths IH]; [done|].
    by rewrite bind_cons, (filter_none P (thermo_lines t)). }
  by rewrite app_nil_r.
Qed.

Lemma select_thermo_lines (P : str → bool) (f : Thermometer → list str)
    grid column_targets row_targets thermometers :
  Forall (λ t, one_line (direction t) = true) thermometers →
  P [] = false →
  (∀ z, P (lit "#const n=" ++ str_of_Z z ++ lit ".") = false) →
  (∀ r, P (row_line r) = false) → (∀ c, P (col_line c) = false) →
  (∀ r c, P (cell_line r c) = false) →
  (∀ i v, P (col_target_line i v) = false) →
  (∀ i v, P (row_target_line i v) = false) →
  (∀ t, List.filter P (thermo_lines t) = f t) →
  List.filter P (splitlines (render_facts grid column_targets row_targets thermometers))
  = thermometers ≫= f.
Proof.
  intros Hdirs HP Hconst Hr Hc Hcell Hct Hrt Hf.
  rewrite filter_splitlines_rendered, filter_render_tail by done.
  rewrite !filter_none; cycle 1.
  { apply Forall_forall. intros ? (? & ? & -> & _)%elem_of_lookup_imap. apply Hrt. }
  { apply Forall_forall. intros ? (? & ? & -> & _)%elem_of_lookup_imap. apply Hct. }
  cbn [app]. clear Hdirs. induction thermometers as [|t ths IH]; [done|].
  by rewrite !bind_cons, Hf, IH.
Qed.

Lemma bind_singleton_fmap {A B : Type} (f : A → B) (l : list A) :
  l ≫= (λ x, [f x]) = f <$> l.
Proof. induction l as [|x l IH]; [done|]. by rewrite bind_cons, fmap_cons, IH. Qed.

Lemma thermo_lines_no_target (t : Thermometer) :
  Forall (λ l, is_prefix (lit "col_target(") l = false) (thermo_lines t) ∧
  Forall (λ l, is_prefix (lit "row_target(") l = false) (thermo_lines t).
Proof.
  rewrite thermo_lines_eq.
  split; (apply Forall_app_2; [by repeat constructor|]);
    (apply Forall_app_2; [forall_prefix|by repeat constructor]).
Qed.

Lemma select_thermo_cells (t : Thermometer) :
  List.filter (is_prefix (lit "thermo_cell(")) (thermo_lines t) = thermo_cell_line t <$> cells t.
Proof.
  rewrite thermo_lines_eq.
  rewrite !List.filter_app, (filter_all _ (_ <$> _)) by forall_prefix. by rewrite app_nil_r.
Qed.

Lemma select_thermometer (t : Thermometer) :
  List.filter (is_prefix (lit "thermometer(")) (thermo_lines t) = [thermometer_line t].
Proof.
  rewrite thermo_lines_eq.
  rewrite !List.filter_app, (filter_none _ (_ <$> _)) by forall_prefix. reflexivity.
Qed.

(** X12. In the rendered text the lines of the form col_target(i,v). are
    exactly one per column target, in order, numbered from 0, and the same
    holds for row_target(i,v). and the row targets; negative values are
    written with their sign. *)
Theorem render_facts_target_facts (grid : list str) (column_targets row_targets : list Z)
    (thermometers : list Thermometer) :
  Forall (λ t, one_line (direction t) = true) thermometers →
  let out_lines := splitlines (render_facts grid column_targets row_targets thermometers) in
  List.filter (is_prefix (lit "col_target(")) out_lines = imap col_target_line column_targets ∧
  List.filter (is_prefix (lit "row_target(")) out_lines = imap row_target_line row_targets ∧
  length (List.filter (is_prefix (lit "col_target(")) out_lines) = length column_targets ∧
  length (List.filter (is_prefix (lit "row_target(")) out_lines) = length row_targets.
Proof.
  intros Hdirs out_lines.
  assert (List.filter (is_prefix (lit "col_target(")) out_lines
          = imap col_target_line column_targets) as Hcol.
  { unfold out_lines. rewrite select_target_lines; try done; [|apply thermo_lines_no_target].
    rewrite filter_all by forall_prefix. rewrite filter_none by forall_prefix.
    by rewrite app_nil_r. }
  assert (List.filter (is_prefix (lit "row_target(")) out_lines
          = imap row_target_line row_targets) as Hrow.
  { unfold out_lines. rewrite select_target_lines; try done; [|apply thermo_lines_no_target].
    rewrite filter_none by forall_prefix. by rewrite filter_all by forall_prefix. }
  rewrite Hcol, Hrow, !length_imap. done.
Qed.

Lemma render_facts_target_facts_witness :
  let out_lines := splitlines (render_facts sample_grid [1; 2] [-3; 4] sample_thermometers) in
  List.filter (is_prefix (lit "col_target(")) out_lines
    = [lit "col_target(0,1)."; lit "col_target(1,2)."] ∧
  List.filter (is_prefix (lit "row_target(")) out_lines
    = [lit "row_target(0,-3)."; lit "row_target(1,4)."] ∧
  length (List.filter (is_prefix (lit "col_target(")) out_lines) = 2%nat ∧
  length (List.filter (is_prefix (lit "row_target(")) out_lines) = 2%nat.
Proof.
  apply (render_facts_target_facts sample_grid [1; 2] [-3; 4] sample_thermometers).
  repeat constructor.
Defined.

(** X13. In the rendered text each thermometer contributes, in the order
    of the list, one thermometer(r,c). line, one thermo_dir(r,c,direction).
    line, one thermo_length(r,c,len). line carrying the number of its
    cells, and one thermo_cell(r,c,index,row,col). line per cell in the
    order of its cells. *)
Theorem render_facts_thermometer_facts (grid : list str)
    (column_targets row_targets : list Z) (thermometers : list Thermometer) :
  Forall (λ t, one_line (direction t) = true) thermometers →
  let out_lines := splitlines (render_facts grid column_targets row_targets thermometers) in
  List.filter (is_prefix (lit "thermometer(")) out_lines = thermometer_line <$> thermometers ∧
  List.filter (is_prefix (lit "thermo_dir(")) out_lines = thermo_dir_line <$> thermometers ∧
  List.filter (is_prefix (lit "thermo_length(")) out_lines
    = thermo_length_line <$> thermometers ∧
  List.filter (is_prefix (lit "thermo_cell(")) out_lines
    = (thermometers ≫= λ t, thermo_cell_line t <$> cells t).
Proof.
  intros Hdirs out_lines. unfold out_lines. split; [|split; [|split]].
  - rewrite <- bind_singleton_fmap. apply select_thermo_lines; try done.
    apply select_thermometer.
  - rewrite <- bind_singleton_fmap. apply select_thermo_lines; try done.
    intros t. rewrite thermo_lines_eq.
    rewrite !List.filter_app, (filter_none _ (_ <$> _)) by forall_prefix. reflexivity.
  - rewrite <- bind_singleton_fmap. apply select_thermo_lines; try done.
    intros t. rewrite thermo_lines_eq.
    rewrite !List.filter_app, (filter_none _ (_ <$> _)) by forall_prefix. reflexivity.
  - apply select_thermo_lines; try done. apply select_thermo_cells.
Qed.

Lemma render_facts_thermometer_facts_witness :
  let out_lines := splitlines (render_facts sample_grid [1; 2] [-3; 4] sample_thermometers) in
  List.filter (is_prefix (lit "thermometer(")) out_lines
    = [lit "thermometer(0,0)."; lit "thermometer(0,1)."; lit "thermometer(1,1)."] ∧
  List.filter (is_prefix (lit "thermo_dir(")) out_lines
    = [lit "thermo_dir(0,0,down)."; lit "thermo_dir(0,1,right)."; lit "thermo_dir(1,1,up)."] ∧
  List.filter (is_prefix (lit "thermo_length(")) out_lines
    = [lit "thermo_length(0,0,2)."; lit "thermo_length(0,1,1)."; lit "thermo_length(1,1,1)."] ∧
  List.filter (is_prefix (lit "thermo_cell(")) out_lines
    = [lit "thermo_cell(0,0,1,0,0)."; lit "thermo_cell(0,0,2,1,0).";
       lit "thermo_cell(0,1,1,0,1)."; lit "thermo_cell(1,1,1,1,1)."].
Proof.
  apply (render_facts_thermometer_facts sample_grid [1; 2] [-3; 4] sample_thermometers).
  repeat constructor.
Defined.

(** ** The three stages together *)

Lemma extract_directions_one_line (grid : list str) (ths : list Thermometer) :
  square grid → extract_thermometers grid = Return ths →
  Forall (λ t, one_line (direction t) = true) ths.
Proof.
  intros Hsq Hret.
  destruct (extract_returns_inv grid Hsq ths Hret) as (visited & (_ & Hths & _) & _).
  simpl in Hths. apply Forall_forall. intros t [i Hi]%list_elem_of_lookup.
  destruct (Forall2_lookup_r _ _ _ _ _ Hths Hi) as (b & _ & Hof).
  destruct Hof as (ch & ? & ? & _ & _ & _ & Hname & _). by eapply one_line_direction.
Qed.

Lemma parse_then_extract_cases (py_int : str → option Z) (text : str)
    (grid : list str) (column_targets row_targets : list Z) :
  parse_instance py_int text = Return (grid, column_targets, row_targets) →
  (∃ ths, extract_thermometers grid = Return ths ∧
          ∀ x, inside (length grid) x → covered grid x) ∨
  (∃ r c, extract_thermometers grid = Raise (UncoveredCell r c) ∧
          inside (length grid) (r, c) ∧ ¬ covered grid (r, c)).
Proof.
  intros Hparse.
  destruct (parse_instance_shape py_int text grid column_targets row_targets Hparse)
    as (_ & Hsq & _).
  destruct (extract_spec grid Hsq) as (visited & ths & Hinv & Hres).
  pose proof (λ x, visited_iff_covered grid (visited, ths) x Hinv) as Hcov. simpl in Hcov.
  destruct Hres as [[Hall Hret]|(l1 & x & l2 & Heq & _ & Hx & Hraise)].
  - left. exists ths. split; [done|]. intros x Hx. apply Hcov; [done|].
    rewrite Forall_forall in Hall. by apply Hall, elem_of_positions.
  - right. exists x.1, x.2. rewrite <- surjective_pairing. split; [done|].
    assert (inside (length grid) x) as Hin.
    { apply elem_of_positions. rewrite Heq. apply elem_of_app. right. left. }
    split; [done|]. intros Hc. apply Hcov in Hc; [|done]. congruence.
Qed.

(** X14. On a grid returned by parse_instance, extract_thermometers either
    returns or raises UncoveredCell: it raises neither
    OverlappingThermometer nor an index or key error, and it is not cut
    short. *)
Theorem parse_then_extract (py_int : str → option Z) (text : str)
    (grid : list str) (column_targets row_targets : list Z) :
  parse_instance py_int text = Return (grid, column_targets, row_targets) →
  (∃ ths, extract_thermometers grid = Return ths ∧
          ∀ x, inside (length grid) x → covered grid x) ∨
  (∃ r c, extract_thermometers grid = Raise (UncoveredCell r c) ∧
          inside (length grid) (r, c) ∧ ¬ covered grid (r, c)).
Proof.
  intros Hparse.
  destruct (parse_then_extract_cases py_int text grid column_targets row_targets Hparse)
    as [(ths & Hret & Hcov)|(r & c & Hraise & Hin & Hnc)].
  - left. by exists ths.
  - right. by exists r, c.
Qed.

Lemma parse_then_extract_witness :
  let text := lit "R>" ++ nl ++ lit "<<" ++ nl ++ lit "1 1" ++ nl ++ lit "1 1" in
  (∃ ths, extract_thermometers orphan_grid = Return ths ∧
          ∀ x, inside 2 x → covered orphan_grid x) ∨
  (∃ r c, extract_thermometers orphan_grid = Raise (UncoveredCell r c) ∧
          inside 2 (r, c) ∧ ¬ covered orphan_grid (r, c)).
Proof.
  intros text.
  apply (parse_then_extract int_decimal text orphan_grid [1; 1] [1; 1]).
  vm_compute; reflexivity.
Defined.

(** X15. For a text on which parse_instance and then extract_thermometers
    succeed, with a grid of n rows, the rendered text starts with the line
    #const n=n., has n col_target lines, n row_target lines, one
    thermometer(r,c). line for each bulb (r,c) of the grid in row-major
    order, and n*n thermo_cell lines; and n is at least 1. *)
Theorem pipeline_output (py_int : str → option Z) (text : str)
    (grid : list str) (column_targets row_targets : list Z) (ths : list Thermometer) :
  parse_instance py_int text = Return (grid, column_targets, row_targets) →
  extract_thermometers grid = Return ths →
  let n := length grid in
  let out_lines := splitlines (render_facts grid column_targets row_targets ths) in
  (1 ≤ n)%nat ∧
  head out_lines = Some (lit "#const n=" ++ str_of_Z (Z.of_nat n) ++ lit ".") ∧
  length (List.filter (is_prefix (lit "col_target(")) out_lines) = n ∧
  length (List.filter (is_prefix (lit "row_target(")) out_lines) = n ∧
  List.filter (is_prefix (lit "thermometer(")) out_lines
    = (λ b : Z * Z, lit "thermometer(" ++ str_of_Z b.1 ++ lit "," ++ str_of_Z b.2 ++ lit ").")
        <$> bulbs grid ∧
  length (List.filter (is_prefix (lit "thermo_cell(")) out_lines) = (n * n)%nat.
Proof.
  intros Hparse Hret n out_lines.
  destruct (parse_instance_shape py_int text grid column_targets row_targets Hparse)
    as (Hne & Hsq & Hct & Hrt).
  pose proof (extract_directions_one_line grid ths Hsq Hret) as Hdirs.
  split; [unfold n; destruct grid; [done|simpl; lia]|]. split.
  { destruct (splitlines_rendered (render_lines grid column_targets row_targets ths))
      as [k Hlines].
    { by apply render_lines_fact. }
    { destruct (render_lines_first grid column_targets row_targets ths) as [rest ->].
      eexists. split; [left|done]. }
    fold (render_facts grid column_targets row_targets ths) in Hlines. fold out_lines in Hlines.
    destruct (render_lines_first grid column_targets row_targets ths) as [rest Hfirst].
    rewrite Hfirst in Hlines. destruct out_lines as [|l ls].
    - destruct k; [done|]. simpl in Hlines. by injection Hlines.
    - simpl in Hlines. by injection Hlines as <-. }
  split.
  { unfold out_lines. rewrite select_target_lines; try done; [|apply thermo_lines_no_target].
    rewrite filter_all by forall_prefix. rewrite filter_none by forall_prefix.
    by rewrite app_nil_r, length_imap. }
  split.
  { unfold out_lines. rewrite select_target_lines; try done; [|apply thermo_lines_no_target].
    rewrite filter_none by forall_prefix. rewrite filter_all by forall_prefix.
    cbn [app]. by rewrite length_imap. }
  split.
  - unfold out_lines.
    rewrite (select_thermo_lines _ (λ t, [thermometer_line t])); try done;
      [|apply select_thermometer].
    rewrite bind_singleton_fmap, <- (extract_bulb_list grid ths Hsq Hret).
    by rewrite <- list_fmap_compose.
  - unfold out_lines.
    rewrite (select_thermo_lines _ (λ t, thermo_cell_line t <$> cells t)); try done;
      [|apply select_thermo_cells].
    unfold n. rewrite <- (extract_total_cells grid ths Hsq Hret). unfold coords.
    clear. induction ths as [|t ths IH]; [done|].
    rewrite !bind_cons, !length_app, IH. unfold cell_coords. by rewrite !length_fmap.
Qed.

Lemma pipeline_output_witness :
  let text := lit "DR" ++ nl ++ lit "vU" ++ nl ++ lit "1 2" ++ nl ++ lit "-3 4" ++ nl in
  let out_lines := splitlines (render_facts sample_grid [1; 2] [-3; 4] sample_thermometers) in
  (1 ≤ 2)%nat ∧
  head out_lines = Some (lit "#const n=2.") ∧
  length (List.filter (is_prefix (lit "col_target(")) out_lines) = 2%nat ∧
  length (List.filter (is_prefix (lit "row_target(")) out_lines) = 2%nat ∧
  List.filter (is_prefix (lit "thermometer(")) out_lines
    = [lit "thermometer(0,0)."; lit "thermometer(0,1)."; lit "thermometer(1,1)."] ∧
  length (List.filter (is_prefix (lit "thermo_cell(")) out_lines) = 4%nat.
Proof.
  intros text.
  apply (pipeline_output int_decimal text sample_grid [1; 2] [-3; 4] sample_thermometers).
  - vm_compute; reflexivity.
  - vm_compute; reflexivity.
Defined.

(** ** main *)


Section main_properties.
Variable py_int : str → option Z.
Variable suffix lower path_str : str → str.
Variable path_exists : str → bool.
Variable read_text : str → read_outcome.

Local Abbreviation run := (main py_int suffix lower path_str path_exists read_text).
Local Abbreviation run_checked :=
  (main_checked py_int suffix lower path_str path_exists read_text).

Lemma main_arguments (argv : list str) :
  run argv = Exit 1 (lit "Usage: python3 encode.py <input-file> [<output-file>]" ++ nl) [] None ∧
    length argv ≠ 2%nat ∧ length argv ≠ 3%nat
  ∨ (∃ program input_path, argv = [program; input_path] ∧
       run argv = run_checked input_path None)
  ∨ (∃ program input_path output_path, argv = [program; input_path; output_path] ∧
       run argv = run_checked input_path (Some output_path)).
Proof.
  unfold main. destruct argv as [|a0 [|a1 [|a2 [|a3 argv]]]].
  - left. split; [done|]. split; simpl; lia.
  - left. split; [done|]. split; simpl; lia.
  - right; left. by exists a0, a1.
  - right; right. by exists a0, a1, a2.
  - left. split.
    + rewrite (bool_decide_eq_false_2 (_ ∨ _)); [done|]. simpl. lia.
    + split; simpl; lia.
Qed.

(** X16. main returns status 0 only after the three stages have succeeded,
    and then it has written the rendered text, whole, to standard output
    (no output argument) or to the output path (whose suffix is .lp, case
    ignored) and nothing to standard error.  In every other return the
    status is 1, nothing is written to a file, and one line is printed: the
    usage line on standard output, or a line starting with Error: on
    standard error. *)
Theorem main_exit (argv : list str) (status : Z) (stdout stderr : str)
    (written : option (str * str)) :
  run argv = Exit status stdout stderr written →
  (status = 0 ∧ stderr = [] ∧
   ∃ input_path text grid column_targets row_targets thermometers,
     argv !! 1%nat = Some input_path ∧
     lower (suffix input_path) = lit ".txt" ∧
     read_instance path_str path_exists read_text input_path = inr text ∧
     parse_instance py_int text = Return (grid, column_targets, row_targets) ∧
     extract_thermometers grid = Return thermometers ∧
     let content := render_facts grid column_targets row_targets thermometers in
     (length argv = 2%nat ∧ stdout = content ∧ written = None
      ∨ ∃ output_path, argv !! 2%nat = Some output_path ∧
                       lower (suffix output_path) = lit ".lp" ∧
                       stdout = [] ∧ written = Some (output_path, content)))
  ∨ (status = 1 ∧ written = None ∧
     (stdout = lit "Usage: python3 encode.py <input-file> [<output-file>]" ++ nl ∧ stderr = []
      ∨ stdout = [] ∧ ∃ message, stderr = lit "Error: " ++ message ++ nl)).
Proof.
  assert (∀ input_path output_path,
            run_checked input_path output_path = Exit status stdout stderr written →
            (status = 0 ∧ stderr = [] ∧
             ∃ text grid column_targets row_targets thermometers,
               lower (suffix input_path) = lit ".txt" ∧
               read_instance path_str path_exists read_text input_path = inr text ∧
               parse_instance py_int text = Return (grid, column_targets, row_targets) ∧
               extract_thermometers grid = Return thermometers ∧
               let content := render_facts grid column_targets row_targets thermometers in
               (output_path = None ∧ stdout = content ∧ written = None
                ∨ ∃ path, output_path = Some path ∧ lower (suffix path) = lit ".lp" ∧
                          stdout = [] ∧ written = Some (path, content)))
            ∨ (status = 1 ∧ written = None ∧ stdout = [] ∧
               ∃ message, stderr = lit "Error: " ++ message ++ nl)) as Hchecked.
  { intros input_path output_path. unfold main_checked.
    case_bool_decide as Hin.
    { intros [= <- <- <- <-]. right. do 3 (split; [done|]).
      by exists (lit "input file must use the .txt extension"). }
    destruct (decide (lower (suffix input_path) = lit ".txt")) as [Htxt|]; [|done].
    destruct (match output_path with
              | Some path => bool_decide (lower (suffix path) ≠ lit ".lp")
              | None => false
              end) eqn:Hout.
    { intros [= <- <- <- <-]. right. do 3 (split; [done|]).
      by exists (lit "output file must use the .lp extension"). }
    destruct (read_instance _ _ _ input_path) as [message|text] eqn:Hread.
    { intros [= <- <- <- <-]. right. do 3 (split; [done|]). by eexists. }
    destruct (parse_instance py_int text) as [[[grid ct] rt]|e|] eqn:Hparse; [| |done].
    - destruct (extract_thermometers grid) as [ths|e|] eqn:Hext; simpl; [|done..].
      destruct output_path as [path|]; intros [= <- <- <- <-]; left;
        (split; [done|]); (split; [done|]); exists text, grid, ct, rt, ths;
        (do 4 (split; [done|])); [right|left; done].
      exists path. split; [done|]. split; [|done].
      apply bool_decide_eq_false in Hout.
      destruct (decide (lower (suffix path) = lit ".lp")); [done|]. by destruct Hout.
    - destruct (is_value_error e); [|done].
      intros [= <- <- <- <-]. right. do 3 (split; [done|]). by eexists. }
  intros Hrun.
  destruct (main_arguments argv) as [(Husage & _)|[(a0 & a1 & -> & Heq)|(a0 & a1 & a2 & -> & Heq)]].
  - rewrite Husage in Hrun. injection Hrun as <- <- <- <-. right. split; [done|].
    split; [done|]. by left.
  - rewrite Heq in Hrun.
    destruct (Hchecked a1 None Hrun)
      as [(-> & -> & text & grid & ct & rt & ths & ? & ? & ? & ? & Hout)|(-> & -> & -> & ?)].
    + left. split; [done|]. split; [done|]. exists a1, text, grid, ct, rt, ths.
      do 5 (split; [done|]). destruct Hout as [(_ & ? & ?)|(? & [=] & _)]. by left.
    + right. split; [done|]. split; [done|]. by right.
  - rewrite Heq in Hrun.
    destruct (Hchecked a1 (Some a2) Hrun)
      as [(-> & -> & text & grid & ct & rt & ths & ? & ? & ? & ? & Hout)|(-> & -> & -> & ?)].
    + left. split; [done|]. split; [done|]. exists a1, text, grid, ct, rt, ths.
      do 5 (split; [done|]). destruct Hout as [([=] & _)|(p & [= <-] & ? & ? & ?)].
      right. by exists a2.
    + right. split; [done|]. split; [done|]. by right.
Qed.

End main_properties.

Lemma main_exit_witness :
  let content := render_facts sample_grid [1; 2] [-3; 4] sample_thermometers in
  let argv := [lit "encode.py"; lit "Board.TXT"; lit "facts.lp"] in
  let world_main :=
    main int_decimal sample_suffix sample_lower id (λ _, true) (λ _, ReadText sample_text) in
  world_main argv = Exit 0 [] [] (Some (lit "facts.lp", content)) ∧
  ((0 = 0 ∧ @nil ascii = [] ∧
    ∃ input_path text grid column_targets row_targets thermometers,
      argv !! 1%nat = Some input_path ∧
      sample_lower (sample_suffix input_path) = lit ".txt" ∧
      read_instance id (λ _, true) (λ _, ReadText sample_text) input_path = inr text ∧
      parse_instance int_decimal text = Return (grid, column_targets, row_targets) ∧
      extract_thermometers grid = Return thermometers ∧
      let rendered := render_facts grid column_targets row_targets thermometers in
      (length argv = 2%nat ∧ @nil ascii = rendered ∧
         Some (lit "facts.lp", content) = None
       ∨ ∃ output_path, argv !! 2%nat = Some output_path ∧
                        sample_lower (sample_suffix output_path) = lit ".lp" ∧
                        @nil ascii = [] ∧
                        Some (lit "facts.lp", content) = Some (output_path, rendered)))
   ∨ (0 = 1 ∧ Some (lit "facts.lp", content) = None ∧
      (@nil ascii = lit "Usage: python3 encode.py <input-file> [<output-file>]" ++ nl ∧
         @nil ascii = []
       ∨ @nil ascii = [] ∧ ∃ message, @nil ascii = lit "Error: " ++ message ++ nl))).
Proof.
  intros content argv world_main.
  assert (world_main argv = Exit 0 [] [] (Some (lit "facts.lp", content))) as Hrun
    by (vm_compute; reflexivity).
  split; [exact Hrun|].
  exact (main_exit int_decimal sample_suffix sample_lower id (λ _, true)
           (λ _, ReadText sample_text) argv 0 [] [] (Some (lit "facts.lp", content)) Hrun).
Defined.


